(** * ModelCheckpointYolov4: a shallow embedding of [custom_callbacks.py]

    The checkpoint callback is embedded as a record of its attributes and
    one state-passing function per method.  Python integers are [Z], metric
    values are extended rationals with a NaN ([num]), a str is the string
    of its code points (taken below 256), the [logs] dictionary is a
    [gmap string num], and the calls that leave the class (the serializer,
    the file system, [re], [tf.train]) are section variables. *)

From Stdlib Require Import ZArith QArith String Ascii List Lia DecimalString.
From stdpp Require Import gmap strings.
Local Open Scope Z_scope.

(** ** Python strings *)

Module PyStr.

Definition dquote : string := String (ascii_of_nat 34) EmptyString.
Definition squote : string := String (ascii_of_nat 39) EmptyString.

(** [s.startswith(p)] *)
Definition startswith (s p : string) : bool := String.prefix p s.

(** [sub in s] *)
Fixpoint contains (sub s : string) : bool :=
  String.prefix sub s ||
  match s with
  | EmptyString => false
  | String _ rest => contains sub rest
  end.

(** [x in l] for a list of strings *)
Definition str_in (x : string) (l : list string) : bool :=
  existsb (String.eqb x) l.

Definition lower_ascii (c : ascii) : ascii :=
  let n := nat_of_ascii c in
  if ((65 <=? n) && (n <=? 90))%nat then ascii_of_nat (n + 32) else c.

(** [s.lower()] on ASCII text *)
Fixpoint lower (s : string) : string :=
  match s with
  | EmptyString => EmptyString
  | String c rest => String (lower_ascii c) (lower rest)
  end.

(** [str(z)] for a Python int *)
Definition str_of_Z (z : Z) : string := NilZero.string_of_int (Z.to_int z).

(** [c * n] *)
Fixpoint repeat_char (c : ascii) (n : nat) : string :=
  match n with
  | O => EmptyString
  | S k => String c (repeat_char c k)
  end.

End PyStr.

(** ** Metric values and the two comparison operators *)

(** A metric value: a float is modelled by the rational it denotes, with
    the two infinities and NaN; only comparisons are ever made on it. *)
Inductive num : Type :=
  | NaN
  | NegInf
  | Fin (q : Q)
  | PosInf.

Definition Qlt_bool (a b : Q) : bool := negb (Qle_bool b a).

(** [np.less(a, b)]: false whenever an operand is NaN. *)
Definition np_less (a b : num) : bool :=
  match a, b with
  | NaN, _ | _, NaN => false
  | NegInf, NegInf => false
  | NegInf, _ => true
  | Fin _, NegInf => false
  | Fin x, Fin y => Qlt_bool x y
  | Fin _, PosInf => true
  | PosInf, _ => false
  end.

(** [np.greater(a, b)] *)
Definition np_greater (a b : num) : bool := np_less b a.

Inductive monitor_op_t : Type := NpLess | NpGreater.

Definition apply_op (op : monitor_op_t) (a b : num) : bool :=
  match op with
  | NpLess => np_less a b
  | NpGreater => np_greater a b
  end.

(** ** Exceptions, observable actions, constructor arguments *)

Inductive exn : Type :=
  | TypeError (msg : string)
  | ValueError (msg : string)
  | KeyError (msg : string)
  | IndexError (msg : string)
  | AttributeError (msg : string)
  | IOError (msg : string)
  | IsADirectoryError (msg : string).

(** What the callback does to the outside world, in order. *)
Inductive event : Type :=
  | LogWarning (msg : string)
  | PrintImproved (epoch1 : Z) (monitor : string) (old new : num) (path : string)
  | PrintNotImproved (epoch1 : Z) (monitor : string) (old : num)
  | PrintSaving (epoch1 : Z) (path : string)
  | SaveWeights (path : string)
  | SaveModel (path : string)
  | SaveNamedModel (name path : string)
  | RemoveTempDir (path : string)
  | LoadWeights (path : string).

(** The [save_freq] argument: a str, an int, a bool (a subclass of int), or
    any other object, of which only [str(x)] is kept. *)
Inductive pyfreq : Type :=
  | FreqStr (s : string)
  | FreqInt (n : Z)
  | FreqBool (b : bool)
  | FreqOther (repr : string).

(** The [options] argument: [None], an instance of one of the two option
    classes, or any other object; of an object only [str(x)] is kept. *)
Inductive options_arg : Type :=
  | OptNone
  | OptCheckpointOptions (repr : string)
  | OptSaveOptions (repr : string)
  | OptOther (repr : string).

Inductive options_val : Type := CheckpointOptions | SaveOptions.

Record init_args : Type := InitArgs {
  a_filepath : string;
  a_model_name : option string;
  a_monitor : string;
  a_verbose : Z;
  a_save_best_only : bool;
  a_save_weights_only : bool;
  a_mode : string;
  a_save_freq : pyfreq;
  a_options : options_arg;
  a_initial_value_threshold : option num;
  kw_load_weights_on_restart : option bool;
  kw_period : option Z
}.

(** The defaults of the signature of [__init__]. *)
Definition default_args (path : string) : init_args :=
  {| a_filepath := path; a_model_name := None; a_monitor := "val_loss";
     a_verbose := 0; a_save_best_only := false; a_save_weights_only := false;
     a_mode := "auto"; a_save_freq := FreqStr "epoch"; a_options := OptNone;
     a_initial_value_threshold := None;
     kw_load_weights_on_restart := None; kw_period := None |}.

Definition with_mode (m : string) (a : init_args) : init_args :=
  {| a_filepath := a_filepath a; a_model_name := a_model_name a;
     a_monitor := a_monitor a; a_verbose := a_verbose a;
     a_save_best_only := a_save_best_only a;
     a_save_weights_only := a_save_weights_only a;
     a_mode := m; a_save_freq := a_save_freq a; a_options := a_options a;
     a_initial_value_threshold := a_initial_value_threshold a;
     kw_load_weights_on_restart := kw_load_weights_on_restart a;
     kw_period := kw_period a |}.

Definition with_save_freq (f : pyfreq) (a : init_args) : init_args :=
  {| a_filepath := a_filepath a; a_model_name := a_model_name a;
     a_monitor := a_monitor a; a_verbose := a_verbose a;
     a_save_best_only := a_save_best_only a;
     a_save_weights_only := a_save_weights_only a;
     a_mode := a_mode a; a_save_freq := f; a_options := a_options a;
     a_initial_value_threshold := a_initial_value_threshold a;
     kw_load_weights_on_restart := kw_load_weights_on_restart a;
     kw_period := kw_period a |}.

Definition with_monitor (m : string) (a : init_args) : init_args :=
  {| a_filepath := a_filepath a; a_model_name := a_model_name a;
     a_monitor := m; a_verbose := a_verbose a;
     a_save_best_only := a_save_best_only a;
     a_save_weights_only := a_save_weights_only a;
     a_mode := a_mode a; a_save_freq := a_save_freq a; a_options := a_options a;
     a_initial_value_threshold := a_initial_value_threshold a;
     kw_load_weights_on_restart := kw_load_weights_on_restart a;
     kw_period := kw_period a |}.

Definition with_save_best_only (b : bool) (a : init_args) : init_args :=
  {| a_filepath := a_filepath a; a_model_name := a_model_name a;
     a_monitor := a_monitor a; a_verbose := a_verbose a;
     a_save_best_only := b;
     a_save_weights_only := a_save_weights_only a;
     a_mode := a_mode a; a_save_freq := a_save_freq a; a_options := a_options a;
     a_initial_value_threshold := a_initial_value_threshold a;
     kw_load_weights_on_restart := kw_load_weights_on_restart a;
     kw_period := kw_period a |}.

(** ** The object *)

Record checkpoint : Type := Checkpoint {
  filepath : string;
  model_name : option string;
  monitor : string;
  verbose : Z;
  save_best_only : bool;
  save_weights_only : bool;
  save_freq : pyfreq;
  epochs_since_last_save : Z;
  batches_seen_since_last_saving : Z;
  last_batch_seen : Z;
  best : num;
  options_ : options_val;
  load_weights_on_restart : bool;
  period : Z;
  monitor_op : monitor_op_t;
  chief_worker_only : bool;
  current_epoch : option Z;
  write_filepath_ : option string
}.

Definition set_epochs_since_last_save (v : Z) (s : checkpoint) : checkpoint :=
  Checkpoint (filepath s) (model_name s) (monitor s) (verbose s)
    (save_best_only s) (save_weights_only s) (save_freq s) v
    (batches_seen_since_last_saving s) (last_batch_seen s) (best s)
    (options_ s) (load_weights_on_restart s) (period s) (monitor_op s)
    (chief_worker_only s) (current_epoch s) (write_filepath_ s).

Definition set_batches_seen_since_last_saving (v : Z) (s : checkpoint) : checkpoint :=
  Checkpoint (filepath s) (model_name s) (monitor s) (verbose s)
    (save_best_only s) (save_weights_only s) (save_freq s)
    (epochs_since_last_save s) v (last_batch_seen s) (best s)
    (options_ s) (load_weights_on_restart s) (period s) (monitor_op s)
    (chief_worker_only s) (current_epoch s) (write_filepath_ s).

Definition set_last_batch_seen (v : Z) (s : checkpoint) : checkpoint :=
  Checkpoint (filepath s) (model_name s) (monitor s) (verbose s)
    (save_best_only s) (save_weights_only s) (save_freq s)
    (epochs_since_last_save s) (batches_seen_since_last_saving s) v (best s)
    (options_ s) (load_weights_on_restart s) (period s) (monitor_op s)
    (chief_worker_only s) (current_epoch s) (write_filepath_ s).

Definition set_best (v : num) (s : checkpoint) : checkpoint :=
  Checkpoint (filepath s) (model_name s) (monitor s) (verbose s)
    (save_best_only s) (save_weights_only s) (save_freq s)
    (epochs_since_last_save s) (batches_seen_since_last_saving s)
    (last_batch_seen s) v
    (options_ s) (load_weights_on_restart s) (period s) (monitor_op s)
    (chief_worker_only s) (current_epoch s) (write_filepath_ s).

Definition set_current_epoch (v : Z) (s : checkpoint) : checkpoint :=
  Checkpoint (filepath s) (model_name s) (monitor s) (verbose s)
    (save_best_only s) (save_weights_only s) (save_freq s)
    (epochs_since_last_save s) (batches_seen_since_last_saving s)
    (last_batch_seen s) (best s)
    (options_ s) (load_weights_on_restart s) (period s) (monitor_op s)
    (chief_worker_only s) (Some v) (write_filepath_ s).

Definition set_write_filepath (v : string) (s : checkpoint) : checkpoint :=
  Checkpoint (filepath s) (model_name s) (monitor s) (verbose s)
    (save_best_only s) (save_weights_only s) (save_freq s)
    (epochs_since_last_save s) (batches_seen_since_last_saving s)
    (last_batch_seen s) (best s)
    (options_ s) (load_weights_on_restart s) (period s) (monitor_op s)
    (chief_worker_only s) (current_epoch s) (Some v).

(** ** [__init__] *)

(** The two [isinstance] tests on [options]. *)
Definition resolve_options (weights_only : bool) (o : options_arg)
  : exn + options_val :=
  if weights_only then
    match o with
    | OptNone | OptCheckpointOptions _ => inr CheckpointOptions
    | OptSaveOptions r | OptOther r =>
        inl (TypeError ("If save_weights_only is True, then `options` must be "
               +:+ "either None or a tf.train.CheckpointOptions. "
               +:+ "Got " +:+ r +:+ "."))
    end
  else
    match o with
    | OptNone | OptSaveOptions _ => inr SaveOptions
    | OptCheckpointOptions r | OptOther r =>
        inl (TypeError ("If save_weights_only is False, then `options` must be "
               +:+ "either None or a tf.saved_model.SaveOptions. "
               +:+ "Got " +:+ r +:+ "."))
    end.

(** The warnings for the two deprecated keyword arguments. *)
Definition kwargs_warnings (a : init_args) : list event :=
  (match kw_load_weights_on_restart a with
   | Some _ =>
       [LogWarning ("`load_weights_on_restart` argument is deprecated. "
          +:+ "Please use `model.load_weights()` for loading weights "
          +:+ "before the start of `model.fit()`.")]
   | None => []
   end) ++
  (match kw_period a with
   | Some _ =>
       [LogWarning ("`period` argument is deprecated. Please use `save_freq` "
          +:+ "to specify the frequency in number of batches seen.")]
   | None => []
   end).

Definition mode_warning (mode : string) : event :=
  LogWarning ("ModelCheckpoint mode " +:+ mode
                +:+ " is unknown, fallback to auto mode.").

(** [if mode not in ["auto", "min", "max"]: warn; mode = "auto"] *)
Definition mode_fallback (mode : string) : list event * string :=
  if negb (PyStr.str_in mode ["auto"; "min"; "max"])
  then ([mode_warning mode], "auto")
  else ([], mode).

(** The test of the [else] branch of the mode dispatch. *)
Definition acc_or_fmeasure (monitor : string) : bool :=
  PyStr.contains "acc" monitor || PyStr.startswith monitor "fmeasure".

Definition best_or (threshold : option num) (d : num) : num :=
  match threshold with
  | Some b => b
  | None => d
  end.

(** The [min] / [max] / [else] dispatch, on the mode left by the fallback. *)
Definition resolve_mode (mode monitor : string) (threshold : option num)
  : monitor_op_t * num :=
  if String.eqb mode "min" then (NpLess, best_or threshold PosInf)
  else if String.eqb mode "max" then (NpGreater, best_or threshold NegInf)
  else if acc_or_fmeasure monitor then (NpGreater, best_or threshold NegInf)
  else (NpLess, best_or threshold PosInf).

(** [self.save_freq == "epoch"] *)
Definition freq_is_epoch (f : pyfreq) : bool :=
  match f with
  | FreqStr s => String.eqb s "epoch"
  | _ => false
  end.

(** [isinstance(self.save_freq, int)] *)
Definition freq_is_int (f : pyfreq) : bool :=
  match f with
  | FreqInt _ | FreqBool _ => true
  | _ => false
  end.

(** [str(self.save_freq)] *)
Definition freq_str (f : pyfreq) : string :=
  match f with
  | FreqStr s => s
  | FreqInt n => PyStr.str_of_Z n
  | FreqBool true => "True"
  | FreqBool false => "False"
  | FreqOther r => r
  end.

Definition unrecognized_save_freq (f : pyfreq) : exn :=
  ValueError ("Unrecognized save_freq: " +:+ freq_str f
    +:+ ". Expected save_freq are " +:+ PyStr.dquote +:+ "epoch"
    +:+ PyStr.dquote +:+ " or integer").

(** The constructor: the warnings it logs, then the exception it raises or
    the object it builds. *)
Definition init (a : init_args) : list event * (exn + checkpoint) :=
  match resolve_options (a_save_weights_only a) (a_options a) with
  | inl e => ([], inl e)
  | inr opts =>
      let w1 := kwargs_warnings a in
      let '(w2, mode) := mode_fallback (a_mode a) in
      let '(op, b) :=
        resolve_mode mode (a_monitor a) (a_initial_value_threshold a) in
      if negb (freq_is_epoch (a_save_freq a)) && negb (freq_is_int (a_save_freq a))
      then (w1 ++ w2, inl (unrecognized_save_freq (a_save_freq a)))
      else
        (w1 ++ w2,
         inr {| filepath := a_filepath a;
                model_name := a_model_name a;
                monitor := a_monitor a;
                verbose := a_verbose a;
                save_best_only := a_save_best_only a;
                save_weights_only := a_save_weights_only a;
                save_freq := a_save_freq a;
                epochs_since_last_save := 0;
                batches_seen_since_last_saving := 0;
                last_batch_seen := 0;
                best := b;
                options_ := opts;
                load_weights_on_restart :=
                  match kw_load_weights_on_restart a with
                  | Some v => v
                  | None => false
                  end;
                period :=
                  match kw_period a with
                  | Some p => p
                  | None => 1
                  end;
                monitor_op := op;
                chief_worker_only := false;
                current_epoch := None;
                write_filepath_ := None |})
  end.

(** ** Methods: state passing with a trace and Python exceptions *)

Record outcome (A : Type) : Type := Outcome {
  self_after : checkpoint;
  trace : list event;
  result : exn + A
}.
Arguments Outcome {A} _ _ _.
Arguments self_after {A} _.
Arguments trace {A} _.
Arguments result {A} _.

(** A method body: the attributes it leaves behind persist also when it
    raises. *)
Definition M (A : Type) : Type := checkpoint -> outcome A.

Definition ret {A} (a : A) : M A := fun s => Outcome s [] (inr a).
Definition raise {A} (e : exn) : M A := fun s => Outcome s [] (inl e).
Definition bind {A B} (m : M A) (f : A -> M B) : M B := fun s =>
  let r := m s in
  match result r with
  | inl e => Outcome (self_after r) (trace r) (inl e)
  | inr a =>
      let r' := f a (self_after r) in
      Outcome (self_after r') (trace r ++ trace r') (result r')
  end.
Definition get : M checkpoint := fun s => Outcome s [] (inr s).
Definition modify (f : checkpoint -> checkpoint) : M unit :=
  fun s => Outcome (f s) [] (inr tt).
Definition emit (e : event) : M unit := fun s => Outcome s [e] (inr tt).

(** [try: m  except ...: h e] *)
Definition try_with {A} (m : M A) (h : exn -> M A) : M A := fun s =>
  let r := m s in
  match result r with
  | inl e =>
      let r' := h e (self_after r) in
      Outcome (self_after r') (trace r ++ trace r') (result r')
  | inr a => r
  end.

Notation "x <- m ;; k" := (bind m (fun x => k))
  (at level 100, m at next level, right associativity).
Notation "m ;;; k" := (bind m (fun _ => k))
  (at level 100, right associativity).

(** [self._batches_seen_since_last_saving >= self.save_freq] *)
Definition counter_ge_freq (seen : Z) (f : pyfreq) : exn + bool :=
  match f with
  | FreqInt n => inr (n <=? seen)
  | FreqBool b => inr ((if b then 1 else 0) <=? seen)
  | _ => inl (TypeError "'>=' not supported between instances of 'int' and 'str'")
  end.

(** The local [add_batches] of [_should_save_on_batch]. *)
Definition add_batches (last batch : Z) : Z :=
  if batch <=? last then batch + 1 else batch - last.

Definition should_save_on_batch (batch : Z) : M bool :=
  s <- get ;;
  if freq_is_epoch (save_freq s) then ret false
  else
    modify (fun s =>
      set_last_batch_seen batch
        (set_batches_seen_since_last_saving
           (batches_seen_since_last_saving s
              + add_batches (last_batch_seen s) batch) s)) ;;;
    s' <- get ;;
    match counter_ge_freq (batches_seen_since_last_saving s') (save_freq s') with
    | inl e => raise e
    | inr true => modify (set_batches_seen_since_last_saving 0) ;;; ret true
    | inr false => ret false
    end.

(** [on_epoch_begin] *)
Definition on_epoch_begin (epoch : Z) : M unit :=
  modify (set_current_epoch epoch).

(** [_implements_train_batch_hooks] *)
Definition implements_train_batch_hooks (s : checkpoint) : bool :=
  negb (freq_is_epoch (save_freq s)).

(** ** [str.format] with keyword arguments *)

(** A keyword argument of [str.format]: the epoch and batch numbers are
    Python ints, the entries of [logs] are floats. *)
Inductive pyval : Type :=
  | PInt (z : Z)
  | PFloat (x : num).

Module StrFormat.

(** Where the scanner of the format string stands: in literal text, just
    after a brace that may be doubled, or inside a replacement field whose
    text so far is [acc], [depth] braces deep. *)
Inductive fmode : Type :=
  | Text
  | SawOpen
  | SawClose
  | Field (acc : string) (depth : nat).

Definition snoc (s : string) (c : ascii) : string :=
  s +:+ String c EmptyString.

Definition is_digit (c : ascii) : bool :=
  let n := nat_of_ascii c in ((48 <=? n) && (n <=? 57))%nat.

Fixpoint all_digits (s : string) : bool :=
  match s with
  | EmptyString => true
  | String c rest => is_digit c && all_digits rest
  end.

Fixpoint digits_value_from (acc : nat) (s : string) : nat :=
  match s with
  | EmptyString => acc
  | String c rest => digits_value_from (10 * acc + (nat_of_ascii c - 48))%nat rest
  end.

Definition digits_value (s : string) : nat := digits_value_from 0%nat s.

(** The field text up to its first [:] or [!], then that separator and
    what follows it. *)
Fixpoint split_field (s : string) : string * option (ascii * string) :=
  match s with
  | EmptyString => (EmptyString, None)
  | String c rest =>
      if Ascii.eqb c ":" || Ascii.eqb c "!" then (EmptyString, Some (c, rest))
      else let '(name, tail) := split_field rest in (String c name, tail)
  end.

Fixpoint drop_last (s : string) : string :=
  match s with
  | EmptyString => EmptyString
  | String c EmptyString => EmptyString
  | String c rest => String c (drop_last rest)
  end.

Fixpoint last_is (d : ascii) (s : string) : bool :=
  match s with
  | EmptyString => false
  | String c EmptyString => Ascii.eqb c d
  | String _ rest => last_is d rest
  end.

(** The integer format specs that are modelled: an optional [0] flag, an
    optional width, an optional presentation type [d].  The result is the
    zero flag and the width. *)
Definition parse_int_spec (spec : string) : option (bool * nat) :=
  let body := if last_is "d" spec then drop_last spec else spec in
  if all_digits body
  then Some (String.prefix "0" body, digits_value body)
  else None.

(** [format(z, spec)] for a modelled spec: right aligned, padded with
    blanks, or with zeros after the sign under the [0] flag. *)
Definition render_int (z : Z) (zero : bool) (width : nat) : string :=
  let digits := PyStr.str_of_Z (Z.abs z) in
  let sign := if z <? 0 then "-" else EmptyString in
  let pad := (width - (String.length sign + String.length digits))%nat in
  if zero then sign +:+ PyStr.repeat_char "0" pad +:+ digits
  else PyStr.repeat_char " " pad +:+ sign +:+ digits.

Definition backslash : ascii := ascii_of_nat 92.

Definition hex_digit (n : nat) : ascii :=
  match String.get n "0123456789abcdef" with
  | Some c => c
  | None => "0"%char
  end.

(** The escape [\xHH] of a code point below 256. *)
Definition hex_escape (n : nat) : string :=
  String backslash
    (String "x" (String (hex_digit (n / 16)%nat)
                   (String (hex_digit (n mod 16)%nat) EmptyString))).

(** [str.isprintable] on a code point below 256: not the controls, not
    the no-break space (160), not the soft hyphen (173). *)
Definition printable (n : nat) : bool :=
  ((32 <=? n) && (n <? 127) || (161 <=? n) && negb (n =? 173))%nat.

(** One character of [repr], inside the quote [quote]. *)
Definition repr_char (quote c : ascii) : string :=
  let n := nat_of_ascii c in
  if Ascii.eqb c quote || Ascii.eqb c backslash
  then String backslash (String c EmptyString)
  else if (n =? 9)%nat then String backslash "t"
  else if (n =? 10)%nat then String backslash "n"
  else if (n =? 13)%nat then String backslash "r"
  else if printable n then String c EmptyString
  else hex_escape n.

Fixpoint repr_body (quote : ascii) (s : string) : string :=
  match s with
  | EmptyString => EmptyString
  | String c rest => repr_char quote c +:+ repr_body quote rest
  end.

(** [repr(s)] of a str, read as the string of its code points, all below
    256: double quotes when [s] holds a single quote and no double quote,
    single quotes otherwise; the quote and the backslash escaped, tab,
    newline and carriage return by their letters, every other character
    that is not printable by its two hex digits. *)
Definition repr_str (s : string) : string :=
  let quote :=
    if PyStr.contains PyStr.squote s && negb (PyStr.contains PyStr.dquote s)
    then ascii_of_nat 34 else ascii_of_nat 39 in
  String quote (repr_body quote s +:+ String quote EmptyString).

Section Format.

(** [format(value, spec)] of Python for every other value and spec. *)
Variable py_format_ext : pyval -> string -> exn + string.

(** The rendering of a replacement field that uses a conversion ([!r]),
    an attribute or index ([a.b], [a[0]]) or a nested field. *)
Variable format_field_ext : string -> gmap string pyval -> exn + string.

Definition format_value (v : pyval) (spec : string) : exn + string :=
  match v with
  | PInt z =>
      match parse_int_spec spec with
      | Some (zero, width) => inr (render_int z zero width)
      | None => py_format_ext v spec
      end
  | PFloat _ => py_format_ext v spec
  end.

(** One replacement field, given the text between its braces. *)
Definition render_field (kw : gmap string pyval) (text : string)
  : exn + string :=
  if PyStr.contains "{" text then format_field_ext text kw
  else
    let '(name, tail) := split_field text in
    if PyStr.contains "." name || PyStr.contains "[" name
    then format_field_ext text kw
    else
      match tail with
      | Some ("!"%char, _) => format_field_ext text kw
      | _ =>
          let spec := match tail with
                      | Some (_, sp) => sp
                      | None => EmptyString
                      end in
          if all_digits name
          then inl (IndexError ("Replacement index "
                      +:+ PyStr.str_of_Z (Z.of_nat (digits_value name))
                      +:+ " out of range for positional args tuple"))
          else
            match kw !! name with
            | None => inl (KeyError name)
            | Some v => format_value v spec
            end
      end.

(** One character of the format string. *)
Definition format_step (kw : gmap string pyval) (st : fmode * string)
  (c : ascii) : exn + (fmode * string) :=
  let '(mode, out) := st in
  match mode with
  | Text =>
      if Ascii.eqb c "{" then inr (SawOpen, out)
      else if Ascii.eqb c "}" then inr (SawClose, out)
      else inr (Text, snoc out c)
  | SawOpen =>
      if Ascii.eqb c "{" then inr (Text, snoc out c)
      else if Ascii.eqb c "}" then
        match render_field kw EmptyString with
        | inl e => inl e
        | inr r => inr (Text, out +:+ r)
        end
      else inr (Field (String c EmptyString) 0, out)
  | SawClose =>
      if Ascii.eqb c "}" then inr (Text, snoc out c)
      else inl (ValueError "Single '}' encountered in format string")
  | Field acc depth =>
      if Ascii.eqb c "{" then inr (Field (snoc acc c) (S depth), out)
      else if Ascii.eqb c "}" then
        match depth with
        | O =>
            match render_field kw acc with
            | inl e => inl e
            | inr r => inr (Text, out +:+ r)
            end
        | S d => inr (Field (snoc acc c) d, out)
        end
      else inr (Field (snoc acc c) depth, out)
  end.

(** The scan is lazy, as Python's is: the first field that fails raises,
    whatever follows it in the template. *)
Fixpoint format_run (kw : gmap string pyval) (st : fmode * string)
  (s : string) : exn + (fmode * string) :=
  match s with
  | EmptyString => inr st
  | String c rest =>
      match format_step kw st c with
      | inl e => inl e
      | inr st' => format_run kw st' rest
      end
  end.

Definition format_finish (st : fmode * string) : exn + string :=
  match fst st with
  | Text => inr (snd st)
  | SawOpen => inl (ValueError "Single '{' encountered in format string")
  | SawClose => inl (ValueError "Single '}' encountered in format string")
  | Field _ _ => inl (ValueError "expected '}' before end of string")
  end.

(** The call [template.format] with the keyword arguments [kw]. *)
Definition str_format (template : string) (kw : gmap string pyval)
  : exn + string :=
  match format_run kw (Text, EmptyString) template with
  | inl e => inl e
  | inr st => format_finish st
  end.

End Format.

(** [f(name=v, ..., **logs)]: a name given twice is a [TypeError] of the
    call itself. *)
Definition keyword_call (named : list (string * pyval)) (logs : gmap string num)
  : exn + gmap string pyval :=
  match List.find (fun kv => bool_decide (is_Some (logs !! kv.1))) named with
  | Some kv =>
      inl (TypeError ("str.format() got multiple values for keyword argument "
             +:+ repr_str kv.1))
  | None => inr (list_to_map named ∪ (PFloat <$> logs))
  end.

End StrFormat.

(** [str(e)] *)
Definition exn_str (e : exn) : string :=
  match e with
  | KeyError k => StrFormat.repr_str k
  | TypeError m | ValueError m | IndexError m | AttributeError m
  | IOError m | IsADirectoryError m => m
  end.

(** The attribute [_write_filepath] read before [_get_file_path] set it. *)
Definition no_write_filepath : exn :=
  AttributeError
    "'ModelCheckpointYolov4' object has no attribute '_write_filepath'".

(** ** Paths *)

Module PyPath.

Definition has_slash (s : string) : bool := PyStr.contains "/" s.

(** [os.path.basename] *)
Fixpoint basename (s : string) : string :=
  match s with
  | EmptyString => EmptyString
  | String c rest =>
      if has_slash rest then basename rest
      else if Ascii.eqb c "/" then rest else s
  end.

(** The text up to and including the last slash. *)
Fixpoint head (s : string) : string :=
  match s with
  | EmptyString => EmptyString
  | String c rest => if has_slash s then String c (head rest) else EmptyString
  end.

Fixpoint rstrip_slash (s : string) : string :=
  match s with
  | EmptyString => EmptyString
  | String c rest =>
      let r := rstrip_slash rest in
      if Ascii.eqb c "/" && String.eqb r EmptyString then EmptyString
      else String c r
  end.

(** [os.path.dirname]: the head without its trailing slashes, unless it
    is made of slashes only. *)
Definition dirname (s : string) : string :=
  let h := head s in
  if String.eqb (rstrip_slash h) EmptyString then h else rstrip_slash h.

(** [s.endswith(p)] *)
Definition endswith (s p : string) : bool :=
  String.prefix (String.rev p) (String.rev s).

(** [os.path.join(d, f)] *)
Definition join (d f : string) : string :=
  if String.prefix "/" f then f
  else if String.eqb d EmptyString || endswith d "/" then d +:+ f
  else d +:+ "/" +:+ f.

(** The text after the last closing brace, when there is one. *)
Fixpoint after_last_close (s : string) : option string :=
  match s with
  | EmptyString => None
  | String c rest =>
      match after_last_close rest with
      | Some t => Some t
      | None => if Ascii.eqb c "}" then Some rest else None
      end
  end.

(** [re.sub(r"{.*}", r".*", s)] on a one-line name: the greedy match runs
    from the first opening brace to the last closing brace. *)
Fixpoint sub_placeholders (s : string) : string :=
  match s with
  | EmptyString => EmptyString
  | String c rest =>
      if Ascii.eqb c "{" then
        match after_last_close rest with
        | Some t => ".*" +:+ t
        | None => s
        end
      else String c (sub_placeholders rest)
  end.

(** [a > b] on str *)
Definition str_gt (a b : string) : bool := String.ltb b a.

End PyPath.

(** ** The methods that save and restore *)

(** The loop variables of the directory scan. *)
Record scan_state : Type := ScanState {
  latest_mod_time : Z;
  file_path_with_latest_mod_time : option string;
  n_file_with_latest_mod_time : Z;
  file_path_with_largest_file_name : option string
}.

Section Callback.

Variable py_format_ext : pyval -> string -> exn + string.
Variable format_field_ext : string -> gmap string pyval -> exn + string.

(** [distributed_file_utils.write_filepath(path, strategy)] *)
Variable write_filepath : string -> string.

(** What the serializer answers to a save call: nothing, or an exception. *)
Variable save_raises : event -> option exn.

(** [tf.train.latest_checkpoint], [re.match], [tf.io.gfile.exists],
    [os.listdir], [os.path.getmtime] (in ticks of the file system's clock:
    only its order is used), and the answer of [model.load_weights]. *)
Variable latest_checkpoint : string -> option string.
Variable re_match : string -> string -> bool.
Variable gfile_exists : string -> bool.
Variable listdir : string -> list string.
Variable getmtime : string -> Z.
Variable load_weights_raises : string -> option exn.

(** The keyword arguments of the [format] call of [_get_file_path]. *)
Definition format_named (epoch : Z) (batch : option Z) (logs : gmap string num)
  : list (string * pyval) :=
  match batch with
  | None => [("epoch", PInt (epoch + 1))]
  | Some b =>
      if bool_decide (is_Some (logs !! "batch"))
      then [("epoch", PInt (epoch + 1))]
      else [("epoch", PInt (epoch + 1)); ("batch", PInt (b + 1))]
  end.

Definition format_kwargs (epoch : Z) (batch : option Z) (logs : gmap string num)
  : exn + gmap string pyval :=
  StrFormat.keyword_call (format_named epoch batch logs) logs.

Definition format_failure (template key : string) : exn :=
  KeyError ("Failed to format this callback filepath: " +:+ PyStr.dquote
    +:+ template +:+ PyStr.dquote +:+ ". Reason: " +:+ StrFormat.repr_str key).

(** The [try] block of [_get_file_path] with its [except KeyError]. *)
Definition format_file_path (template : string) (epoch : Z) (batch : option Z)
  (logs : gmap string num) : exn + string :=
  match format_kwargs epoch batch logs with
  | inl e => inl e
  | inr kw =>
      match StrFormat.str_format py_format_ext format_field_ext template kw with
      | inl (KeyError k) => inl (format_failure template k)
      | other => other
      end
  end.

Definition get_file_path (epoch : Z) (batch : option Z) (logs : gmap string num)
  : M string :=
  s <- get ;;
  match format_file_path (filepath s) epoch batch logs with
  | inl e => raise e
  | inr file_path =>
      modify (set_write_filepath (write_filepath file_path)) ;;;
      ret (write_filepath file_path)
  end.

Definition maybe_remove_file : M unit :=
  s <- get ;;
  match write_filepath_ s with
  | Some p => emit (RemoveTempDir p)
  | None =>
      raise no_write_filepath
  end.

Definition when (b : bool) (m : M unit) : M unit := if b then m else ret tt.

(** The save call chosen by [save_weights_only] and [model_name]. *)
Definition save_call (s : checkpoint) (path : string) : event :=
  if save_weights_only s then SaveWeights path
  else match model_name s with
       | None => SaveModel path
       | Some n => SaveNamedModel n path
       end.

Definition do_save (path : string) : M unit :=
  s <- get ;;
  emit (save_call s path) ;;;
  match save_raises (save_call s path) with
  | Some e => raise e
  | None => ret tt
  end.

Definition metric_unavailable (monitor : string) : event :=
  LogWarning ("Can save best model only with " +:+ monitor
                +:+ " available, skipping.").

(** The body of the [try] of [_save_model]. *)
Definition save_body (epoch : Z) (logs : gmap string num) (path : string)
  : M unit :=
  s <- get ;;
  (if save_best_only s then
     match logs !! monitor s with
     | None => emit (metric_unavailable (monitor s))
     | Some current =>
         if apply_op (monitor_op s) current (best s) then
           when (0 <? verbose s)
             (emit (PrintImproved (epoch + 1) (monitor s) (best s) current path)) ;;;
           modify (set_best current) ;;;
           do_save path
         else
           when (0 <? verbose s)
             (emit (PrintNotImproved (epoch + 1) (monitor s) (best s)))
     end
   else
     when (0 <? verbose s) (emit (PrintSaving (epoch + 1) path)) ;;;
     do_save path) ;;;
  maybe_remove_file.

Definition non_directory_message (prefix path : string) : string :=
  "Please specify a non-directory filepath for "
  +:+ "ModelCheckpoint. Filepath used is an existing "
  +:+ "directory: " +:+ prefix +:+ path.

(** The two [except] clauses of [_save_model]. *)
Definition save_handler (path : string) (e : exn) : M unit :=
  match e with
  | IsADirectoryError _ => raise (IOError (non_directory_message EmptyString path))
  | IOError msg =>
      if PyStr.contains "is a directory" (PyStr.lower msg)
      then raise (IOError (non_directory_message "f" path))
      else raise e
  | _ => raise e
  end.

(** [isinstance(self.save_freq, int) or
    self.epochs_since_last_save >= self.period] *)
Definition interval_reached (s : checkpoint) : bool :=
  freq_is_int (save_freq s) || (period s <=? epochs_since_last_save s).

Definition save_model (epoch : Z) (batch : option Z)
  (logs : option (gmap string num)) : M unit :=
  let logs := default ∅ logs in
  s <- get ;;
  if interval_reached s then
    modify (set_epochs_since_last_save 0) ;;;
    path <- get_file_path epoch batch logs ;;
    try_with (save_body epoch logs path) (save_handler path)
  else ret tt.

Definition on_train_batch_end (batch : Z) (logs : option (gmap string num))
  : M unit :=
  b <- should_save_on_batch batch ;;
  if b then
    s <- get ;;
    match current_epoch s with
    | Some epoch => save_model epoch (Some batch) logs
    | None =>
        raise (AttributeError
          "'ModelCheckpointYolov4' object has no attribute '_current_epoch'")
    end
  else ret tt.

Definition on_epoch_end (epoch : Z) (logs : option (gmap string num)) : M unit :=
  modify (fun s => set_epochs_since_last_save (epochs_since_last_save s + 1) s) ;;;
  s <- get ;;
  if freq_is_epoch (save_freq s) then save_model epoch None logs else ret tt.

(** [_checkpoint_exists] *)
Definition checkpoint_exists (path : string) : bool :=
  if PyPath.endswith path ".h5" then gfile_exists path
  else gfile_exists path || gfile_exists (path +:+ ".index").

(** One turn of the loop over [os.listdir(dir_name)]. *)
Definition scan_step (dir_name regex : string) (st : scan_state)
  (file_name : string) : scan_state :=
  if re_match regex file_name then
    let file_path := PyPath.join dir_name file_name in
    let mod_time := getmtime file_path in
    let largest :=
      match file_path_with_largest_file_name st with
      | None => Some file_path
      | Some l => if PyPath.str_gt file_path l then Some file_path else Some l
      end in
    if latest_mod_time st <? mod_time then
      ScanState mod_time (Some file_path) 1 largest
    else if mod_time =? latest_mod_time st then
      ScanState (latest_mod_time st) (file_path_with_latest_mod_time st)
        (n_file_with_latest_mod_time st + 1) largest
    else
      ScanState (latest_mod_time st) (file_path_with_latest_mod_time st)
        (n_file_with_latest_mod_time st) largest
  else st.

Definition scan_init : scan_state := ScanState 0 None 0 None.

(** The scan of the directory and the choice that ends the method. *)
Definition scan_directory (dir_name regex : string) : option string :=
  let st :=
    if gfile_exists dir_name
    then fold_left (scan_step dir_name regex) (listdir dir_name) scan_init
    else scan_init in
  if n_file_with_latest_mod_time st =? 1
  then file_path_with_latest_mod_time st
  else file_path_with_largest_file_name st.

Definition get_most_recently_modified_file_matching_pattern (pattern : string)
  : option string :=
  let dir_name := PyPath.dirname pattern in
  let base_name := PyPath.basename pattern in
  let base_name_regex := "^" +:+ PyPath.sub_placeholders base_name +:+ "$" in
  match latest_checkpoint dir_name with
  | Some latest =>
      if re_match base_name_regex (PyPath.basename latest) then Some latest
      else scan_directory dir_name base_name_regex
  | None => scan_directory dir_name base_name_regex
  end.

Definition on_train_begin : M unit :=
  s <- get ;;
  if load_weights_on_restart s then
    match get_most_recently_modified_file_matching_pattern (filepath s) with
    | Some filepath_to_load =>
        if checkpoint_exists filepath_to_load then
          emit (LoadWeights filepath_to_load) ;;;
          match load_weights_raises filepath_to_load with
          | Some (IOError m as e) | Some (IsADirectoryError m as e)
          | Some (ValueError m as e) =>
              raise (ValueError ("Error loading file from " +:+ filepath_to_load
                       +:+ ". Reason: " +:+ exn_str e))
          | Some e => raise e
          | None => ret tt
          end
        else ret tt
    | None => ret tt
    end
  else ret tt.

(** The hooks the training loop calls, and a session as the list of its
    calls.  A hook that raises leaves the attributes as they were when it
    raised; the session goes on with the next call. *)
Inductive hook : Type :=
  | OnTrainBegin
  | OnEpochBegin (epoch : Z)
  | OnTrainBatchEnd (batch : Z) (logs : option (gmap string num))
  | OnEpochEnd (epoch : Z) (logs : option (gmap string num)).

Definition call (h : hook) : M unit :=
  match h with
  | OnTrainBegin => on_train_begin
  | OnEpochBegin epoch => on_epoch_begin epoch
  | OnTrainBatchEnd batch logs => on_train_batch_end batch logs
  | OnEpochEnd epoch logs => on_epoch_end epoch logs
  end.

Fixpoint session (hs : list hook) (s : checkpoint) : checkpoint :=
  match hs with
  | [] => s
  | h :: rest => session rest (self_after (call h s))
  end.

End Callback.

(** The answers of [_should_save_on_batch] to a run of step indices. *)
Fixpoint run_batches (batches : list Z) (s : checkpoint)
  : list (exn + bool) * checkpoint :=
  match batches with
  | [] => ([], s)
  | b :: rest =>
      let r := should_save_on_batch b s in
      let '(answers, s') := run_batches rest (self_after r) in
      (result r :: answers, s')
  end.

(** ** [CosineAnnealingScheduler] *)

Inductive schedule_error : Type :=
  | ZeroDivisionError
  | OverflowError
  | MathDomainError.

Section Cosine.

(** Python floats and the operations [schedule] applies to them.  The
    arithmetic never raises; the conversion of an int fails on an int too
    large for a float, and [math.cos] fails on an infinity. *)
Variable float : Type.
Variables fadd fsub fmul fdiv : float -> float -> float.
Variable math_cos : float -> option float.
Variable math_pi : float.
Variables one two : float.
Variable float_of_int : Z -> option float.

Record CosineAnnealingScheduler : Type := {
  cas_verbose : Z;
  lr_min : float;
  lr_max : float;
  epochs_per_cycle : Z
}.

(** [schedule(self, epoch, lr)], for an int [epoch] and an int
    [epochs_per_cycle]; [%] is the floored remainder of Python, which
    [Z.modulo] is for a divisor other than zero. *)
Definition schedule (self : CosineAnnealingScheduler) (epoch : Z) (lr : float)
  : schedule_error + float :=
  if epochs_per_cycle self =? 0 then inl ZeroDivisionError
  else
    match float_of_int (epoch mod epochs_per_cycle self) with
    | None => inl OverflowError
    | Some m =>
        match float_of_int (epochs_per_cycle self) with
        | None => inl OverflowError
        | Some t =>
            match math_cos (fdiv (fmul math_pi m) t) with
            | None => inl MathDomainError
            | Some c =>
                inr (fadd (lr_min self)
                       (fdiv (fmul (fsub (lr_max self) (lr_min self))
                                (fadd one c)) two))
            end
        end
    end.

End Cosine.

(** * Vocabulary of the statements *)

(** The object a call of the constructor builds, for calls that build one. *)
Definition built (a : init_args) : checkpoint :=
  match snd (init a) with
  | inr obj => obj
  | inl _ =>
      Checkpoint (a_filepath a) (a_model_name a) (a_monitor a) (a_verbose a)
        (a_save_best_only a) (a_save_weights_only a) (a_save_freq a)
        0 0 0 PosInf SaveOptions false 1 NpLess false None None
  end.

(** An object as [__init__] leaves it for [save_freq=3]. *)
Definition every_three_steps : checkpoint :=
  built (with_save_freq (FreqInt 3) (default_args "weights.h5")).

(** An object that saves the best weights only, under a path that names
    the monitored metric. *)
Definition best_only_by_val_loss : checkpoint :=
  built (with_save_best_only true (default_args "weights.{val_loss}.h5")).

(** An object that saves every epoch under a path with an epoch and a
    metric placeholder. *)
Definition per_epoch_with_metric : checkpoint :=
  built (default_args "weights.{epoch:02d}-{val_loss}.h5").

(** An object that saves every epoch under a path with two metric
    placeholders, the first with an integer spec. *)
Definition per_epoch_two_metrics : checkpoint :=
  built (default_args "w.{loss:d}-{val_loss}.h5").

(** An object that saves every epoch under a path whose placeholder name
    holds a quote. *)
Definition per_epoch_quoted_name : checkpoint :=
  built (default_args "w.{it's}.h5").

(** A save call to the serializer. *)
Definition is_save_call (e : event) : bool :=
  match e with
  | SaveWeights _ | SaveModel _ | SaveNamedModel _ _ => true
  | _ => false
  end.

(** The reading of the specification: the epoch marker or a positive
    integer step count. *)
Definition spec_valid_save_freq (f : pyfreq) : bool :=
  match f with
  | FreqStr s => String.eqb s "epoch"
  | FreqInt n => 0 <? n
  | _ => false
  end.

Definition zero_freq_args : init_args :=
  with_save_freq (FreqInt 0) (default_args "weights.h5").

(** [s'] keeps the comparison of [s], and its best value is that of [s] or
    one the comparison prefers. *)
Definition improves (s s' : checkpoint) : Prop :=
  monitor_op s' = monitor_op s
  /\ (best s' = best s \/ apply_op (monitor_op s) (best s') (best s) = true).

(** The text of a replacement field and the placeholder around it. *)
Definition field_text (name : string) (spec : option string) : string :=
  match spec with
  | Some sp => name +:+ ":" +:+ sp
  | None => name
  end.

Definition placeholder (name : string) (spec : option string) : string :=
  "{" +:+ field_text name spec +:+ "}".

Definition has_char (c : ascii) (s : string) : bool :=
  PyStr.contains (String c EmptyString) s.

Definition brace_free (s : string) : bool :=
  negb (has_char "{" s) && negb (has_char "}" s).

(** A keyword name: no brace, no separator of the field grammar, and not
    a positional index. *)
Definition plain_name (name : string) : bool :=
  brace_free name
  && negb (has_char ":" name) && negb (has_char "!" name)
  && negb (has_char "." name) && negb (has_char "[" name)
  && negb (StrFormat.all_digits name).

Definition plain_spec (spec : option string) : bool :=
  match spec with
  | Some sp => brace_free sp
  | None => true
  end.

(** The logs of an epoch that trained without validation data. *)
Definition loss_only : gmap string num := {[ "loss" := Fin (3 # 4) ]}.

(** The logs of a step that report the index of the batch. *)
Definition logs_with_batch : gmap string num := {[ "batch" := Fin (2 # 1) ]}.

(** The greater of a path and the greatest path so far. *)
Definition keep_greater (acc : option string) (path : string) : option string :=
  match acc with
  | None => Some path
  | Some l => if PyPath.str_gt path l then Some path else Some l
  end.

(** The reading of the specification, on the matching entries with their
    modification times: among the entries of the latest time, the greatest
    path. *)
Definition spec_locate (entries : list (string * Z)) : option string :=
  match entries with
  | [] => None
  | (_, t0) :: rest =>
      let latest := fold_left (fun m e => Z.max m (snd e)) rest t0 in
      fold_left keep_greater
        (map fst (List.filter (fun e => snd e =? latest) entries)) None
  end.

(** Every matching name of [names] is older than [t]. *)
Definition all_older (re_match : string -> string -> bool)
  (getmtime : string -> Z) (dir_name regex : string) (t : Z)
  (names : list string) : Prop :=
  Forall (fun name => re_match regex name = true ->
                      getmtime (PyPath.join dir_name name) < t) names.

(** ** A single-worker world for the closed examples

    Every path is written where it is resolved, the serializer and the
    loader never fail, no checkpoint marker exists, and two directories
    hold three weight files each.  Beyond the modelled integer specs the
    formatter knows the empty spec on a float of integral value ([2.0]), and
    the matcher knows the patterns the locator builds from literal
    characters, [.] and [.*] between [^] and [$]. *)

Module World.

Definition py_format_ext (v : pyval) (spec : string) : exn + string :=
  match v, spec with
  | PFloat (Fin q), EmptyString =>
      if (Qden q =? 1)%positive
      then inr (PyStr.str_of_Z (Qnum q) +:+ ".0")
      else inl (ValueError "Invalid format specifier")
  | _, _ => inl (ValueError "Invalid format specifier")
  end.

Definition format_field_ext (text : string) (kw : gmap string pyval)
  : exn + string :=
  inl (ValueError "Invalid format specifier").

Definition write_filepath (path : string) : string := path.

Definition save_raises (call : event) : option exn := None.

Definition latest_checkpoint (dir_name : string) : option string := None.

Inductive re_token : Type := ReLit (c : ascii) | ReAny | ReAnyStar.

Fixpoint re_tokens (s : string) : list re_token :=
  match s with
  | EmptyString => []
  | String c rest =>
      if Ascii.eqb c "." then
        match rest with
        | String d rest' =>
            if Ascii.eqb d "*" then ReAnyStar :: re_tokens rest'
            else ReAny :: re_tokens rest
        | EmptyString => [ReAny]
        end
      else ReLit c :: re_tokens rest
  end.

Fixpoint match_tokens (ts : list re_token) : string -> bool :=
  match ts with
  | [] => fun s => String.eqb s EmptyString
  | ReLit c :: ts' => fun s =>
      match s with
      | String d s' => Ascii.eqb c d && match_tokens ts' s'
      | EmptyString => false
      end
  | ReAny :: ts' => fun s =>
      match s with
      | String d s' => negb (Ascii.eqb d (ascii_of_nat 10)) && match_tokens ts' s'
      | EmptyString => false
      end
  | ReAnyStar :: ts' =>
      fix star (s : string) : bool :=
        match_tokens ts' s ||
        match s with
        | String d s' => negb (Ascii.eqb d (ascii_of_nat 10)) && star s'
        | EmptyString => false
        end
  end.

Definition re_match (regex name : string) : bool :=
  match regex with
  | String c body =>
      Ascii.eqb c "^" && StrFormat.last_is "$" body
      && match_tokens (re_tokens (StrFormat.drop_last body)) name
  | EmptyString => false
  end.

Definition listdir (dir_name : string) : list string :=
  if String.eqb dir_name "ckpt"
  then ["w.0.90.h5"; "w.0.50.h5"; "w.0.40.h5"]
  else if String.eqb dir_name "tmp"
  then ["f.batch03epoch02.h5"; "f.batch02epoch02.h5"; "f.batch01epoch01.h5"]
  else [].

Definition gfile_exists (path : string) : bool :=
  PyStr.str_in path
    ["ckpt"; "ckpt/w.0.90.h5"; "ckpt/w.0.50.h5"; "ckpt/w.0.40.h5";
     "tmp"; "tmp/f.batch03epoch02.h5"; "tmp/f.batch02epoch02.h5";
     "tmp/f.batch01epoch01.h5"].

Definition getmtime (path : string) : Z :=
  if String.eqb path "ckpt/w.0.90.h5" then 100
  else if String.eqb path "ckpt/w.0.50.h5" then 200
  else if String.eqb path "ckpt/w.0.40.h5" then 200
  else 50.

Definition load_weights_raises (path : string) : option exn := None.

Definition call : hook -> M unit :=
  call py_format_ext format_field_ext write_filepath save_raises
    latest_checkpoint re_match gfile_exists listdir getmtime
    load_weights_raises.

Definition session : list hook -> checkpoint -> checkpoint :=
  session py_format_ext format_field_ext write_filepath save_raises
    latest_checkpoint re_match gfile_exists listdir getmtime
    load_weights_raises.

Definition save_model : Z -> option Z -> option (gmap string num) -> M unit :=
  save_model py_format_ext format_field_ext write_filepath save_raises.

Definition format_file_path
  : string -> Z -> option Z -> gmap string num -> exn + string :=
  format_file_path py_format_ext format_field_ext.

Definition locate : string -> option string :=
  get_most_recently_modified_file_matching_pattern latest_checkpoint
    re_match gfile_exists listdir getmtime.

(** The matching entries of a directory with their modification times. *)
Definition entries (dir_name regex : string) : list (string * Z) :=
  map (fun name => (PyPath.join dir_name name,
                    getmtime (PyPath.join dir_name name)))
    (List.filter (fun name => re_match regex name) (listdir dir_name)).

End World.


(** ** Vocabulary of the further properties *)

(** The two [isinstance] tests on [options], as one test. *)
Definition options_accepted (weights_only : bool) (o : options_arg) : bool :=
  match o with
  | OptNone => true
  | OptCheckpointOptions _ => weights_only
  | OptSaveOptions _ => negb weights_only
  | OptOther _ => false
  end.

(** The attributes that only [__init__] assigns. *)
Definition same_config (s s' : checkpoint) : Prop :=
  filepath s' = filepath s
  /\ model_name s' = model_name s
  /\ monitor s' = monitor s
  /\ verbose s' = verbose s
  /\ save_best_only s' = save_best_only s
  /\ save_weights_only s' = save_weights_only s
  /\ save_freq s' = save_freq s
  /\ options_ s' = options_ s
  /\ load_weights_on_restart s' = load_weights_on_restart s
  /\ period s' = period s
  /\ monitor_op s' = monitor_op s
  /\ chief_worker_only s' = chief_worker_only s.

(** A run of step indices in which every index is the one after the last,
    or zero: one step per call, with epochs of any lengths. *)
Fixpoint unit_steps (last : Z) (batches : list Z) : Prop :=
  match batches with
  | [] => True
  | b :: rest => (b = 0 \/ b = last + 1) /\ unit_steps b rest
  end.

(** The calls of [on_epoch_end] in a session. *)
Definition is_epoch_end (h : hook) : bool :=
  match h with
  | OnEpochEnd _ _ => true
  | _ => false
  end.

(** A line printed under [verbose]. *)
Definition is_print (e : event) : bool :=
  match e with
  | PrintImproved _ _ _ _ _ | PrintNotImproved _ _ _ | PrintSaving _ _ => true
  | _ => false
  end.

(** The lines the unconditional branch prints. *)
Definition saving_lines (s : checkpoint) (epoch : Z) (path : string)
  : list event :=
  if 0 <? verbose s then [PrintSaving (epoch + 1) path] else [].

(** The lines the improving branch prints. *)
Definition improved_lines (s : checkpoint) (epoch : Z) (current : num)
  (path : string) : list event :=
  if 0 <? verbose s
  then [PrintImproved (epoch + 1) (monitor s) (best s) current path]
  else [].

(** The lines the non-improving branch prints. *)
Definition not_improved_lines (s : checkpoint) (epoch : Z) : list event :=
  if 0 <? verbose s
  then [PrintNotImproved (epoch + 1) (monitor s) (best s)]
  else [].

(** Whether the [try] block reaches a save call: always without
    [save_best_only], and with it when the logged metric improves. *)
Definition reaches_save (s : checkpoint) (logs : gmap string num) : bool :=
  if save_best_only s then
    match logs !! monitor s with
    | Some current => apply_op (monitor_op s) current (best s)
    | None => false
    end
  else true.

(** The regular expression the locator builds from a pattern. *)
Definition pattern_regex (pattern : string) : string :=
  "^" +:+ PyPath.sub_placeholders (PyPath.basename pattern) +:+ "$".

(** A directory of logs in which one file is the youngest. *)
Module Logdir.

Definition re_match (regex name : string) : bool := World.re_match regex name.

Definition gfile_exists (path : string) : bool := String.prefix "logs" path.

Definition listdir (dir_name : string) : list string :=
  ["run.01.h5"; "run.03.h5"; "run.02.h5"; "notes.txt"].

Definition getmtime (path : string) : Z :=
  if String.eqb path "logs/run.01.h5" then 10
  else if String.eqb path "logs/run.03.h5" then 30
  else if String.eqb path "logs/run.02.h5" then 20
  else 40.

End Logdir.

(** The two deprecated keyword arguments. *)
Definition with_kwargs (restart : option bool) (p : option Z) (a : init_args)
  : init_args :=
  {| a_filepath := a_filepath a; a_model_name := a_model_name a;
     a_monitor := a_monitor a; a_verbose := a_verbose a;
     a_save_best_only := a_save_best_only a;
     a_save_weights_only := a_save_weights_only a;
     a_mode := a_mode a; a_save_freq := a_save_freq a; a_options := a_options a;
     a_initial_value_threshold := a_initial_value_threshold a;
     kw_load_weights_on_restart := restart;
     kw_period := p |}.

(** An object that restores the latest weights when training begins. *)
Definition restarting : checkpoint :=
  built (with_kwargs (Some true) None (default_args "ckpt/w.{val_loss:.2f}.h5")).

(** An object that saves every second epoch. *)
Definition every_second_epoch : checkpoint :=
  built (with_kwargs None (Some 2) (default_args "weights.h5")).

(** Objects at the end of their first epoch, the counter already raised
    by [on_epoch_end]: one that always saves, one that saves the best
    weights only, and that one with a best value of one quarter. *)
Definition epoch_ended : checkpoint :=
  set_epochs_since_last_save 1 (built (default_args "weights.{epoch:02d}.h5")).

Definition epoch_ended_best_only : checkpoint :=
  set_epochs_since_last_save 1
    (built (with_save_best_only true (default_args "weights.{epoch:02d}.h5"))).

Definition epoch_ended_quarter : checkpoint :=
  set_best (Fin (1 # 4)) epoch_ended_best_only.

Definition val_loss_half : gmap string num := {[ "val_loss" := Fin (1 # 2) ]}.

Definition val_loss_nan : gmap string num := {[ "val_loss" := NaN ]}.

Definition logs_with_epoch : gmap string num := {[ "epoch" := Fin (3 # 1) ]}.

(** A serializer whose disk is full, and one that finds a directory. *)
Definition disk_full (call : event) : option exn :=
  Some (IOError "No space left on device").

Definition finds_directory (call : event) : option exn :=
  Some (IsADirectoryError "Is a directory").


(** * Properties *)

(** ** The step counter *)

Lemma add_batches_positive (last batch : Z) :
  0 <= batch -> 1 <= add_batches last batch.
Proof.
  intros Hb. unfold add_batches.
  destruct (Z.leb_spec batch last); lia.
Qed.

(** In step mode one call adds [add_batches], compares with the
    threshold, and resets on a trigger. *)
Lemma should_save_on_batch_step (s : checkpoint) (n batch : Z) :
  save_freq s = FreqInt n ->
  should_save_on_batch batch s =
    let seen := batches_seen_since_last_saving s
                + add_batches (last_batch_seen s) batch in
    Outcome
      (set_batches_seen_since_last_saving (if n <=? seen then 0 else seen)
         (set_last_batch_seen batch s))
      [] (inr (n <=? seen)).
Proof.
  intros Hf. destruct s; cbn in Hf; subst.
  unfold should_save_on_batch, bind, get, modify, ret. cbn.
  destruct (n <=? _); reflexivity.
Qed.

(** In epoch mode the method answers [False] and touches nothing. *)
Lemma should_save_on_batch_epoch (s : checkpoint) (batch : Z) :
  save_freq s = FreqStr "epoch" ->
  should_save_on_batch batch s = Outcome s [] (inr false).
Proof.
  intros Hf. unfold should_save_on_batch, bind, get, ret. cbn.
  rewrite Hf. reflexivity.
Qed.

(** C1: in step mode with threshold [n], [_should_save_on_batch] answers
    true exactly when the steps counted since the last trigger, plus the
    steps this call adds, reach [n]; a step index not above the previous one
    counts as a new epoch and adds index + 1, so that a non-negative index
    never adds less than one step; a trigger leaves the counter at zero,
    with no excess kept.  With [n = 3] and fresh counters, the indices
    0, 1, 2 trigger once, on the third call, and a following index 0 leaves
    the counter at one. *)
Theorem C1_should_save_on_batch_counts_steps (s : checkpoint) (n batch : Z) :
  save_freq s = FreqInt n ->
  result (should_save_on_batch batch s)
    = inr (n <=? batches_seen_since_last_saving s
                 + add_batches (last_batch_seen s) batch)
  /\ add_batches (last_batch_seen s) batch
     = (if batch <=? last_batch_seen s then batch + 1
        else batch - last_batch_seen s)
  /\ (0 <= batch -> 1 <= add_batches (last_batch_seen s) batch)
  /\ batches_seen_since_last_saving (self_after (should_save_on_batch batch s))
     = (if n <=? batches_seen_since_last_saving s
                  + add_batches (last_batch_seen s) batch
        then 0
        else batches_seen_since_last_saving s
             + add_batches (last_batch_seen s) batch)
  /\ last_batch_seen (self_after (should_save_on_batch batch s)) = batch
  /\ (n = 3 -> batches_seen_since_last_saving s = 0 -> last_batch_seen s = 0 ->
      fst (run_batches [0; 1; 2] s) = [inr false; inr false; inr true]
      /\ batches_seen_since_last_saving (snd (run_batches [0; 1; 2] s)) = 0
      /\ fst (run_batches [0; 1; 2; 0] s)
         = [inr false; inr false; inr true; inr false]
      /\ batches_seen_since_last_saving (snd (run_batches [0; 1; 2; 0] s)) = 1).
Proof.
  intros Hf. rewrite (should_save_on_batch_step s n batch Hf). cbn.
  repeat split.
  - apply add_batches_positive.
  - destruct s; cbn in *; subst; reflexivity.
  - destruct s; cbn in *; subst; reflexivity.
  - destruct s; cbn in *; subst; reflexivity.
  - destruct s; cbn in *; subst; reflexivity.
Qed.

Lemma C1_should_save_on_batch_counts_steps_witness :
  result (should_save_on_batch 0 every_three_steps) = inr false
  /\ fst (run_batches [0; 1; 2; 0] every_three_steps)
     = [inr false; inr false; inr true; inr false].
Proof.
  pose proof (C1_should_save_on_batch_counts_steps every_three_steps 3 0
                eq_refl) as (Hr & _ & _ & _ & _ & Hrun).
  split.
  - exact Hr.
  - exact (proj1 (proj2 (proj2 (Hrun eq_refl eq_refl eq_refl)))).
Defined.

(** ** The constructor *)

(** C5, counterexample: [save_freq=0] is neither the epoch marker nor a
    positive integer, and the constructor builds the object. *)
Lemma C5_zero_save_freq_is_accepted :
  spec_valid_save_freq (a_save_freq zero_freq_args) = false
  /\ exists obj, init zero_freq_args = ([], inr obj)
                 /\ save_freq obj = FreqInt 0.
Proof.
  split; [reflexivity|]. eexists. split; reflexivity.
Qed.

Lemma freq_is_epoch_iff (f : pyfreq) :
  freq_is_epoch f = true <-> f = FreqStr "epoch".
Proof.
  destruct f; cbn; try (split; [discriminate | discriminate]).
  rewrite String.eqb_eq. split; [now intros -> | now intros [= ->]].
Qed.

Lemma freq_is_int_iff (f : pyfreq) :
  freq_is_int f = true <-> (exists n, f = FreqInt n) \/ (exists b, f = FreqBool b).
Proof.
  destruct f; cbn; split; intros H; try discriminate; eauto;
    destruct H as [[? H] | [? H]]; discriminate.
Qed.

Lemma resolve_options_TypeError (w : bool) (o : options_arg) (e : exn) :
  resolve_options w o = inl e -> exists msg, e = TypeError msg.
Proof.
  unfold resolve_options. destruct w, o; intros [= <-]; eauto.
Qed.

(** C5, as the code has it: the options are checked first; after that the
    constructor raises the [save_freq] error exactly when [save_freq] is
    neither the string ["epoch"] nor an instance of [int], and builds the
    object exactly when it is one of the two.  Every int passes: zero, the
    negative ones, and the booleans. *)
Theorem C5_save_freq_must_be_epoch_or_int (a : init_args) :
  ((exists obj, snd (init a) = inr obj) <->
     (exists opts, resolve_options (a_save_weights_only a) (a_options a) = inr opts)
     /\ (a_save_freq a = FreqStr "epoch"
         \/ (exists n, a_save_freq a = FreqInt n)
         \/ (exists b, a_save_freq a = FreqBool b)))
  /\ (snd (init a) = inl (unrecognized_save_freq (a_save_freq a)) <->
        (exists opts, resolve_options (a_save_weights_only a) (a_options a) = inr opts)
        /\ a_save_freq a <> FreqStr "epoch"
        /\ (forall n, a_save_freq a <> FreqInt n)
        /\ (forall b, a_save_freq a <> FreqBool b)).
Proof.
  pose proof (freq_is_epoch_iff (a_save_freq a)) as He.
  pose proof (freq_is_int_iff (a_save_freq a)) as Hi.
  unfold init.
  destruct (resolve_options _ _) as [e|opts] eqn:Ho.
  - apply resolve_options_TypeError in Ho as [msg ->]. cbn.
    split; split.
    + intros [obj [=]].
    + intros [[opts [=]] _].
    + intros [=].
    + intros [[opts [=]] _].
  - destruct (mode_fallback _) as [w2 mode].
    destruct (resolve_mode _ _ _) as [op b].
    destruct (freq_is_epoch (a_save_freq a)) eqn:E1;
      destruct (freq_is_int (a_save_freq a)) eqn:E2; cbn.
    + split; split.
      * intros _. split; [eauto|]. left. now apply He.
      * eauto.
      * intros [=].
      * intros (_ & Hne & _). exfalso. apply Hne. now apply He.
    + split; split.
      * intros _. split; [eauto|]. left. now apply He.
      * eauto.
      * intros [=].
      * intros (_ & Hne & _). exfalso. apply Hne. now apply He.
    + split; split.
      * intros _. split; [eauto|]. right. now apply Hi.
      * eauto.
      * intros [=].
      * intros (_ & _ & Hn & Hb). exfalso.
        destruct (proj1 Hi eq_refl) as [[n H] | [b' H]];
          [apply (Hn n H) | apply (Hb b' H)].
    + split; split.
      * intros [obj [=]].
      * intros (_ & [H | H]).
        -- apply He in H. discriminate.
        -- assert (false = true) by (apply Hi; tauto). discriminate.
      * intros _. split; [eauto|]. repeat split.
        -- intros H. apply He in H. discriminate.
        -- intros n H. assert (false = true) by (apply Hi; eauto). discriminate.
        -- intros b' H. assert (false = true) by (apply Hi; eauto). discriminate.
      * reflexivity.
Qed.

(** C10: a mode string other than ["auto"], ["min"], ["max"] raises
    nothing by itself: the constructor logs one warning, after those of the
    deprecated keyword arguments, and otherwise answers exactly as it does
    for ["auto"]; with accepted [options] and [save_freq] it builds the
    object, whose comparison is the one resolved from the metric's name. *)
Theorem C10_unknown_mode_falls_back_to_auto (a : init_args) :
  PyStr.str_in (a_mode a) ["auto"; "min"; "max"] = false ->
  snd (init a) = snd (init (with_mode "auto" a))
  /\ fst (init a)
     = match resolve_options (a_save_weights_only a) (a_options a) with
       | inl _ => []
       | inr _ => fst (init (with_mode "auto" a)) ++ [mode_warning (a_mode a)]
       end
  /\ (forall opts,
        resolve_options (a_save_weights_only a) (a_options a) = inr opts ->
        freq_is_epoch (a_save_freq a) || freq_is_int (a_save_freq a) = true ->
        exists obj,
          snd (init a) = inr obj
          /\ monitor_op obj
             = (if acc_or_fmeasure (a_monitor a) then NpGreater else NpLess)).
Proof.
  intros Hm. unfold init, mode_fallback. rewrite Hm. cbn.
  destruct (resolve_options _ _) as [e|opts]; [repeat split; intros ? [=]|].
  unfold resolve_mode. cbn.
  destruct (acc_or_fmeasure (a_monitor a));
    destruct (freq_is_epoch (a_save_freq a));
    destruct (freq_is_int (a_save_freq a)); cbn;
    rewrite ?app_nil_r;
    (repeat split; [intros ? _; try discriminate; intros _; eexists; split; reflexivity]).
Qed.

Lemma C10_unknown_mode_falls_back_to_auto_witness :
  snd (init (with_mode "average" (default_args "weights.h5")))
  = snd (init (with_mode "auto" (with_mode "average" (default_args "weights.h5"))))
  /\ fst (init (with_mode "average" (default_args "weights.h5")))
     = [mode_warning "average"].
Proof.
  pose proof (C10_unknown_mode_falls_back_to_auto
                (with_mode "average" (default_args "weights.h5")) eq_refl)
    as (Hs & Hw & _).
  split; [exact Hs | exact Hw].
Defined.

(** ** Attributes across a method call *)

Lemma self_after_bind {A B} (m : M A) (f : A -> M B) (s : checkpoint) :
  self_after (bind m f s)
  = match result (m s) with
    | inl _ => self_after (m s)
    | inr a => self_after (f a (self_after (m s)))
    end.
Proof. unfold bind. destruct (result (m s)); reflexivity. Qed.

Lemma self_after_try_with {A} (m : M A) (h : exn -> M A) (s : checkpoint) :
  self_after (try_with m h s)
  = match result (m s) with
    | inl e => self_after (h e (self_after (m s)))
    | inr _ => self_after (m s)
    end.
Proof. unfold try_with. destruct (result (m s)); reflexivity. Qed.

Section Steps.

(** A relation between the attributes before and after, kept by every
    assignment a method makes. *)
Variable R : checkpoint -> checkpoint -> Prop.
Hypothesis R_trans : forall a b c, R a b -> R b c -> R a c.

Lemma R_bind {A B} (m : M A) (f : A -> M B) (s : checkpoint) :
  R s (self_after (m s)) ->
  (forall a, result (m s) = inr a ->
             R (self_after (m s)) (self_after (f a (self_after (m s))))) ->
  R s (self_after (bind m f s)).
Proof.
  intros Hm Hf. rewrite self_after_bind.
  destruct (result (m s)) as [e|a] eqn:E; [exact Hm|].
  eapply R_trans; [exact Hm | now apply Hf].
Qed.

Lemma R_try_with {A} (m : M A) (h : exn -> M A) (s : checkpoint) :
  R s (self_after (m s)) ->
  (forall e, R (self_after (m s)) (self_after (h e (self_after (m s))))) ->
  R s (self_after (try_with m h s)).
Proof.
  intros Hm Hh. rewrite self_after_try_with.
  destruct (result (m s)); [|exact Hm].
  eapply R_trans; [exact Hm | apply Hh].
Qed.

End Steps.

Section Methods.
Variable py_format_ext : pyval -> string -> exn + string.
Variable format_field_ext : string -> gmap string pyval -> exn + string.
Variable write_filepath : string -> string.
Variable save_raises : event -> option exn.
Variable latest_checkpoint : string -> option string.
Variable re_match : string -> string -> bool.
Variable gfile_exists : string -> bool.
Variable listdir : string -> list string.
Variable getmtime : string -> Z.
Variable load_weights_raises : string -> option exn.

Lemma do_save_outcome (path : string) (s : checkpoint) :
  do_save save_raises path s
  = Outcome s [save_call s path]
      (match save_raises (save_call s path) with
       | Some e => inl e
       | None => inr tt
       end).
Proof.
  unfold do_save, bind, get, emit, raise, ret. cbn.
  destruct (save_raises _); reflexivity.
Qed.

Lemma maybe_remove_file_outcome (s : checkpoint) :
  maybe_remove_file s
  = match write_filepath_ s with
    | Some p => Outcome s [RemoveTempDir p] (inr tt)
    | None => Outcome s [] (inl no_write_filepath)
    end.
Proof.
  unfold maybe_remove_file, bind, get, emit, raise. cbn.
  destruct (write_filepath_ s); reflexivity.
Qed.

Lemma maybe_remove_file_self (s : checkpoint) :
  self_after (maybe_remove_file s) = s.
Proof. rewrite maybe_remove_file_outcome. destruct (write_filepath_ s); reflexivity. Qed.

Lemma when_emit_outcome (b : bool) (e : event) (s : checkpoint) :
  when b (emit e) s = Outcome s (if b then [e] else []) (inr tt).
Proof. destruct b; reflexivity. Qed.

Lemma save_handler_self (path : string) (e : exn) (s : checkpoint) :
  self_after (save_handler path e s) = s.
Proof.
  unfold save_handler. destruct e; try reflexivity.
  destruct (PyStr.contains _ _); reflexivity.
Qed.

(** The only assignment of the [try] block is [self.best = current], made
    when the comparison holds. *)
Lemma save_body_self (epoch : Z) (logs : gmap string num) (path : string)
  (s : checkpoint) :
  self_after (save_body save_raises epoch logs path s)
  = if save_best_only s then
      match logs !! monitor s with
      | Some current =>
          if apply_op (monitor_op s) current (best s) then set_best current s
          else s
      | None => s
      end
    else s.
Proof.
  unfold save_body, bind, get.
  cbn [self_after result trace].
  destruct (save_best_only s).
  - destruct (logs !! monitor s) as [current|].
    + destruct (apply_op _ _ _).
      * rewrite when_emit_outcome. cbn [self_after result trace modify].
        rewrite do_save_outcome. cbn [self_after result trace].
        destruct (save_raises _); cbn [self_after result trace]; [reflexivity|].
        apply maybe_remove_file_self.
      * rewrite when_emit_outcome. cbn [self_after result trace].
        apply maybe_remove_file_self.
    + cbn [self_after result trace emit]. apply maybe_remove_file_self.
  - rewrite when_emit_outcome. cbn [self_after result trace].
    rewrite do_save_outcome. cbn [self_after result trace].
    destruct (save_raises _); cbn [self_after result trace]; [reflexivity|].
    apply maybe_remove_file_self.
Qed.

Lemma get_file_path_outcome (epoch : Z) (batch : option Z)
  (logs : gmap string num) (s : checkpoint) :
  get_file_path py_format_ext format_field_ext write_filepath epoch batch logs s
  = match format_file_path py_format_ext format_field_ext
            (filepath s) epoch batch logs with
    | inl e => Outcome s [] (inl e)
    | inr p => Outcome (set_write_filepath (write_filepath p) s) []
                 (inr (write_filepath p))
    end.
Proof.
  unfold get_file_path, bind, get, modify, raise, ret. cbn.
  destruct (format_file_path _ _ _ _ _ _); reflexivity.
Qed.

(** The interval test of [_save_model]. *)

(** The attributes [_save_model] leaves: the epoch counter is cleared, the
    resolved path is recorded, and [best] moves under the test of
    [save_body_self] only. *)
Lemma save_model_self (epoch : Z) (batch : option Z)
  (logs : option (gmap string num)) (s : checkpoint) :
  self_after (save_model py_format_ext format_field_ext write_filepath
                save_raises epoch batch logs s)
  = if interval_reached s then
      match format_file_path py_format_ext format_field_ext
              (filepath s) epoch batch (default ∅ logs) with
      | inl _ => set_epochs_since_last_save 0 s
      | inr p =>
          let s1 := set_write_filepath (write_filepath p)
                      (set_epochs_since_last_save 0 s) in
          if save_best_only s then
            match default ∅ logs !! monitor s with
            | Some current =>
                if apply_op (monitor_op s) current (best s)
                then set_best current s1 else s1
            | None => s1
            end
          else s1
      end
    else s.
Proof.
  unfold save_model, interval_reached, bind at 1, get.
  cbn [self_after result trace].
  destruct (_ || _); [|reflexivity].
  unfold bind at 1. cbn [self_after result trace modify].
  unfold bind at 1. rewrite get_file_path_outcome.
  cbn [filepath set_epochs_since_last_save].
  destruct (format_file_path _ _ _ _ _ _) as [e|p];
    cbn [self_after result trace]; [reflexivity|].
  rewrite self_after_try_with, save_body_self.
  cbn [save_best_only monitor monitor_op best set_write_filepath
         set_epochs_since_last_save].
  destruct (result _); [|reflexivity].
  apply save_handler_self.
Qed.


Lemma should_save_on_batch_keeps (batch : Z) (s : checkpoint) :
  best (self_after (should_save_on_batch batch s)) = best s
  /\ monitor_op (self_after (should_save_on_batch batch s)) = monitor_op s.
Proof.
  unfold should_save_on_batch, bind, get, modify, ret, raise.
  cbn [self_after result trace].
  destruct (freq_is_epoch _); [split; reflexivity|].
  cbn [self_after result trace].
  destruct (counter_ge_freq _ _) as [e|[|]]; split; reflexivity.
Qed.

Lemma on_train_begin_self (s : checkpoint) :
  self_after (on_train_begin latest_checkpoint re_match gfile_exists listdir
                getmtime load_weights_raises s) = s.
Proof.
  unfold on_train_begin, bind, get, emit, ret, raise.
  cbn [self_after result trace].
  destruct (load_weights_on_restart s); [|reflexivity].
  destruct (get_most_recently_modified_file_matching_pattern _ _ _ _ _ _)
    as [p|]; [|reflexivity].
  destruct (checkpoint_exists _ _); [|reflexivity].
  cbn [self_after result trace].
  destruct (load_weights_raises p) as [[]|]; reflexivity.
Qed.

End Methods.

(** ** The order of the best value *)

Lemma Qlt_bool_iff (x y : Q) : Qlt_bool x y = true <-> (x < y)%Q.
Proof.
  unfold Qlt_bool. rewrite negb_true_iff.
  split.
  - intros H. apply Qnot_le_lt. intros Hle.
    apply Qle_bool_iff in Hle. congruence.
  - intros H. destruct (Qle_bool y x) eqn:E; [|reflexivity].
    apply Qle_bool_iff in E. exfalso. exact (Qlt_not_le _ _ H E).
Qed.

Lemma np_less_irrefl (a : num) : np_less a a = false.
Proof.
  destruct a as [| |q|]; cbn; try reflexivity.
  destruct (Qlt_bool q q) eqn:E; [|reflexivity].
  apply Qlt_bool_iff in E. exfalso. exact (Qlt_irrefl _ E).
Qed.

Lemma np_less_trans (a b c : num) :
  np_less a b = true -> np_less b c = true -> np_less a c = true.
Proof.
  destruct a as [| |x|], b as [| |y|], c as [| |z|]; cbn;
    try reflexivity; try discriminate.
  rewrite !Qlt_bool_iff. apply Qlt_trans.
Qed.

Lemma np_less_asym (a b : num) : np_less a b = true -> np_less b a = false.
Proof.
  intros H. destruct (np_less b a) eqn:E; [|reflexivity].
  pose proof (np_less_trans _ _ _ H E) as Hc.
  rewrite np_less_irrefl in Hc. discriminate.
Qed.

Lemma apply_op_trans (op : monitor_op_t) (a b c : num) :
  apply_op op a b = true -> apply_op op b c = true -> apply_op op a c = true.
Proof.
  destruct op; cbn; unfold np_greater; eauto using np_less_trans.
Qed.

Lemma improves_refl (s : checkpoint) : improves s s.
Proof. split; [reflexivity | now left]. Qed.

Lemma improves_trans (a b c : checkpoint) :
  improves a b -> improves b c -> improves a c.
Proof.
  intros [Hop1 H1] [Hop2 H2]. split; [congruence|].
  rewrite Hop1 in H2.
  destruct H1 as [E1|L1], H2 as [E2|L2].
  - left. congruence.
  - right. now rewrite <- E1.
  - right. now rewrite E2.
  - right. eapply apply_op_trans; eassumption.
Qed.

Lemma improves_same (s s' : checkpoint) :
  best s' = best s -> monitor_op s' = monitor_op s -> improves s s'.
Proof. intros Hb Ho. split; [exact Ho | now left]. Qed.

Section Session.
Variable py_format_ext : pyval -> string -> exn + string.
Variable format_field_ext : string -> gmap string pyval -> exn + string.
Variable write_filepath : string -> string.
Variable save_raises : event -> option exn.
Variable latest_checkpoint : string -> option string.
Variable re_match : string -> string -> bool.
Variable gfile_exists : string -> bool.
Variable listdir : string -> list string.
Variable getmtime : string -> Z.
Variable load_weights_raises : string -> option exn.

Local Abbreviation save_model' :=
  (save_model py_format_ext format_field_ext write_filepath save_raises).
Local Abbreviation call' :=
  (call py_format_ext format_field_ext write_filepath save_raises
     latest_checkpoint re_match gfile_exists listdir getmtime
     load_weights_raises).
Local Abbreviation session' :=
  (session py_format_ext format_field_ext write_filepath save_raises
     latest_checkpoint re_match gfile_exists listdir getmtime
     load_weights_raises).

Lemma save_model_improves (epoch : Z) (batch : option Z)
  (logs : option (gmap string num)) (s : checkpoint) :
  improves s (self_after (save_model' epoch batch logs s)).
Proof.
  rewrite save_model_self.
  destruct (interval_reached s); [|apply improves_refl].
  destruct (format_file_path _ _ _ _ _ _); [now apply improves_same|].
  cbn zeta.
  destruct (save_best_only s); [|now apply improves_same].
  destruct (default ∅ logs !! monitor s) as [current|];
    [|now apply improves_same].
  destruct (apply_op _ _ _) eqn:E; [|now apply improves_same].
  split; [reflexivity | right; exact E].
Qed.

Lemma call_improves (h : hook) (s : checkpoint) :
  improves s (self_after (call' h s)).
Proof.
  destruct h as [|epoch|batch logs|epoch logs]; cbn [call].
  - rewrite on_train_begin_self. apply improves_refl.
  - now apply improves_same.
  - unfold on_train_batch_end.
    apply (R_bind improves improves_trans).
    + apply improves_same; apply should_save_on_batch_keeps.
    + intros [|] _; [|apply improves_refl].
      unfold bind, get. cbn [self_after result trace].
      destruct (current_epoch _); [|apply improves_refl].
      apply save_model_improves.
  - unfold on_epoch_end.
    apply (R_bind improves improves_trans); [now apply improves_same|].
    intros _ _. unfold bind at 1, get. cbn [self_after result trace].
    destruct (freq_is_epoch _); [|apply improves_refl].
    apply save_model_improves.
Qed.

Lemma session_improves (hs : list hook) (s : checkpoint) :
  improves s (session' hs s).
Proof.
  revert s. induction hs as [|h hs IH]; intros s; cbn [session].
  - apply improves_refl.
  - eapply improves_trans; [apply call_improves | apply IH].
Qed.

(** C3: the stored best value changes only in a save event that runs
    under [save_best_only] with a monitored value the comparison prefers to
    it, and then becomes that value; so over any session the comparison is
    kept and the best value is unchanged or preferred: never larger under
    [np.less], never smaller under [np.greater].  The constructor starts it
    at the threshold given, or at plus infinity under [np.less] and minus
    infinity under [np.greater]. *)
Theorem C3_best_moves_only_by_improvement (hs : list hook) (s : checkpoint)
  (epoch : Z) (batch : option Z) (logs : option (gmap string num)) :
  (best (self_after (save_model' epoch batch logs s)) = best s
   \/ (save_best_only s = true /\ interval_reached s = true
       /\ exists current,
            default ∅ logs !! monitor s = Some current
            /\ apply_op (monitor_op s) current (best s) = true
            /\ best (self_after (save_model' epoch batch logs s)) = current))
  /\ monitor_op (session' hs s) = monitor_op s
  /\ (best (session' hs s) = best s
      \/ apply_op (monitor_op s) (best (session' hs s)) (best s) = true)
  /\ (monitor_op s = NpLess ->
      np_greater (best (session' hs s)) (best s) = false)
  /\ (monitor_op s = NpGreater ->
      np_less (best (session' hs s)) (best s) = false)
  /\ (forall a tr obj,
        init a = (tr, inr obj) ->
        best obj = best_or (a_initial_value_threshold a)
                     (match monitor_op obj with
                      | NpLess => PosInf
                      | NpGreater => NegInf
                      end)).
Proof.
  split; [|split; [|split; [|split; [|split]]]].
  - rewrite save_model_self.
    destruct (interval_reached s); [|now left].
    destruct (format_file_path _ _ _ _ _ _); [now left|]. cbn zeta.
    destruct (save_best_only s); [|now left].
    destruct (default ∅ logs !! monitor s) as [current|]; [|now left].
    destruct (apply_op _ _ _) eqn:E; [|now left].
    right. repeat split. exists current. repeat split. exact E.
  - apply session_improves.
  - apply session_improves.
  - intros Hop. destruct (session_improves hs s) as [_ [-> | H]].
    + apply np_less_irrefl.
    + rewrite Hop in H. cbn in H. unfold np_greater. now apply np_less_asym.
  - intros Hop. destruct (session_improves hs s) as [_ [-> | H]].
    + apply np_less_irrefl.
    + rewrite Hop in H. cbn in H. unfold np_greater in H. now apply np_less_asym.
  - intros a tr obj. unfold init.
    destruct (resolve_options _ _); [intros [=]|].
    destruct (mode_fallback _) as [w2 mode]. unfold resolve_mode.
    destruct (String.eqb mode "min");
      [|destruct (String.eqb mode "max"); [|destruct (acc_or_fmeasure _)]];
      (destruct (negb _ && negb _); intros [= <- <-]; reflexivity).
Qed.

(** C7, counterexample: the name ["val_fmeasure"] contains an F-measure
    substring, and the automatic mode resolves it to [np.less] with plus
    infinity as the first best value. *)
Lemma C7_val_fmeasure_resolves_to_min :
  PyStr.contains "fmeasure" "val_fmeasure" = true
  /\ exists obj,
       init (with_monitor "val_fmeasure" (default_args "weights.h5"))
       = ([], inr obj)
       /\ monitor_op obj = NpLess /\ best obj = PosInf.
Proof.
  split; [reflexivity|]. eexists. repeat split.
Qed.

(** C7, as the code has it: under the automatic mode the constructor
    resolves the comparison from the metric's name, [np.greater] with minus
    infinity as default best value when the name contains ["acc"] or starts
    with ["fmeasure"], [np.less] with plus infinity for every other name;
    no method assigns the comparison again.  ["accuracy"] resolves to
    [np.greater] and ["val_loss"] to [np.less]. *)
Theorem C7_auto_mode_resolved_from_name (a : init_args) (tr : list event)
  (obj : checkpoint) (hs : list hook) :
  a_mode a = "auto" ->
  init a = (tr, inr obj) ->
  monitor_op obj
  = (if PyStr.contains "acc" (a_monitor a)
        || PyStr.startswith (a_monitor a) "fmeasure"
     then NpGreater else NpLess)
  /\ best obj
     = best_or (a_initial_value_threshold a)
         (if PyStr.contains "acc" (a_monitor a)
             || PyStr.startswith (a_monitor a) "fmeasure"
          then NegInf else PosInf)
  /\ monitor_op (session' hs obj) = monitor_op obj
  /\ (a_monitor a = "accuracy" -> monitor_op obj = NpGreater)
  /\ (a_monitor a = "val_loss" -> monitor_op obj = NpLess).
Proof.
  intros Hmode. unfold init. rewrite Hmode.
  destruct (resolve_options _ _); [intros [=]|].
  cbn [mode_fallback PyStr.str_in existsb String.eqb Ascii.eqb Bool.eqb
         negb orb].
  unfold resolve_mode, acc_or_fmeasure. cbn [String.eqb Ascii.eqb Bool.eqb].
  destruct (PyStr.contains "acc" (a_monitor a)
            || PyStr.startswith (a_monitor a) "fmeasure") eqn:Hname;
    (destruct (negb _ && negb _); intros [= <- <-]; cbn [monitor_op best];
     (split; [|split; [|split; [|split]]];
      [ reflexivity | reflexivity | apply session_improves
      | intros Hm; rewrite Hm in Hname; try reflexivity; discriminate Hname
      | intros Hm; rewrite Hm in Hname; try reflexivity; discriminate Hname ])).
Qed.

End Session.

Lemma C7_auto_mode_resolved_from_name_witness :
  monitor_op every_three_steps = NpLess
  /\ monitor_op
       (World.session [OnEpochBegin 0; OnTrainBatchEnd 2 None] every_three_steps)
     = monitor_op every_three_steps.
Proof.
  pose proof (C7_auto_mode_resolved_from_name
                World.py_format_ext World.format_field_ext World.write_filepath
                World.save_raises World.latest_checkpoint World.re_match
                World.gfile_exists World.listdir World.getmtime
                World.load_weights_raises
                (with_save_freq (FreqInt 3) (default_args "weights.h5"))
                [] every_three_steps [OnEpochBegin 0; OnTrainBatchEnd 2 None]
                eq_refl eq_refl) as (_ & _ & Hs & _ & Hl).
  split; [exact (Hl eq_refl) | exact Hs].
Defined.

(** ** Strings *)

Lemma append_cons (c : ascii) (s t : string) :
  String c s +:+ t = String c (s +:+ t).
Proof. reflexivity. Qed.

Lemma append_nil_l (t : string) : EmptyString +:+ t = t.
Proof. reflexivity. Qed.

Lemma append_nil_r (s : string) : s +:+ EmptyString = s.
Proof.
  induction s as [|c s IH]; [reflexivity|]. now rewrite append_cons, IH.
Qed.

Lemma append_assoc (a b c : string) : (a +:+ b) +:+ c = a +:+ (b +:+ c).
Proof.
  induction a as [|x a IH]; [reflexivity|]. now rewrite !append_cons, IH.
Qed.

Lemma snoc_append (acc : string) (c : ascii) (t : string) :
  StrFormat.snoc acc c +:+ t = acc +:+ String c t.
Proof. unfold StrFormat.snoc. now rewrite append_assoc. Qed.

Lemma has_char_cons (c d : ascii) (s : string) :
  has_char c (String d s) = Ascii.eqb c d || has_char c s.
Proof.
  unfold has_char. cbn [PyStr.contains String.prefix].
  destruct (ascii_dec c d) as [->|Hne].
  - rewrite Ascii.eqb_refl. now destruct s.
  - apply Ascii.eqb_neq in Hne. now rewrite Hne.
Qed.

Lemma has_char_nil (c : ascii) : has_char c EmptyString = false.
Proof. reflexivity. Qed.

Lemma has_char_append (c : ascii) (a b : string) :
  has_char c (a +:+ b) = has_char c a || has_char c b.
Proof.
  induction a as [|x a IH]; [reflexivity|].
  rewrite append_cons, !has_char_cons, IH. apply orb_assoc.
Qed.

Lemma brace_free_cons (c : ascii) (s : string) :
  brace_free (String c s) = true ->
  Ascii.eqb c "{" = false /\ Ascii.eqb c "}" = false /\ brace_free s = true.
Proof.
  unfold brace_free. rewrite !has_char_cons, (Ascii.eqb_sym "{" c),
    (Ascii.eqb_sym "}" c).
  destruct (Ascii.eqb c "{"), (Ascii.eqb c "}"); cbn; intros H;
    try discriminate H.
  - destruct (has_char "{" s); discriminate H.
  - repeat split. exact H.
Qed.

Lemma brace_free_append (a b : string) :
  brace_free (a +:+ b) = brace_free a && brace_free b.
Proof.
  unfold brace_free. rewrite !has_char_append.
  destruct (has_char "{" a), (has_char "}" a), (has_char "{" b); reflexivity.
Qed.

Section FormatLemmas.
Variable py_format_ext : pyval -> string -> exn + string.
Variable format_field_ext : string -> gmap string pyval -> exn + string.

Local Abbreviation format_run' :=
  (StrFormat.format_run py_format_ext format_field_ext).
Local Abbreviation render_field' :=
  (StrFormat.render_field py_format_ext format_field_ext).
Local Abbreviation str_format' :=
  (StrFormat.str_format py_format_ext format_field_ext).

Lemma format_run_append (kw : gmap string pyval)
  (st : StrFormat.fmode * string) (a b : string) :
  format_run' kw st (a +:+ b)
  = match format_run' kw st a with
    | inl e => inl e
    | inr st' => format_run' kw st' b
    end.
Proof.
  revert st. induction a as [|c a IH]; intros st; [reflexivity|].
  rewrite append_cons. cbn [StrFormat.format_run].
  destruct (StrFormat.format_step _ _ _ _ _); [reflexivity | apply IH].
Qed.

(** Inside a field with no nested brace, the scan collects the text up to
    the closing brace and renders it. *)
Lemma format_run_in_field (kw : gmap string pyval) (out acc t rest : string) :
  brace_free t = true ->
  format_run' kw (StrFormat.Field acc 0, out) (t +:+ String "}" rest)
  = match render_field' kw (acc +:+ t) with
    | inl e => inl e
    | inr r => format_run' kw (StrFormat.Text, out +:+ r) rest
    end.
Proof.
  revert acc. induction t as [|c t IH]; intros acc Hfree.
  - rewrite append_nil_l, append_nil_r.
    cbn [StrFormat.format_run StrFormat.format_step Ascii.eqb Bool.eqb].
    destruct (render_field' kw acc); reflexivity.
  - apply brace_free_cons in Hfree as (Ho & Hc & Hfree).
    rewrite append_cons. cbn [StrFormat.format_run StrFormat.format_step].
    rewrite Ho, Hc. rewrite IH by exact Hfree.
    now rewrite snoc_append.
Qed.

Lemma format_run_placeholder (kw : gmap string pyval) (out t rest : string) :
  brace_free t = true ->
  format_run' kw (StrFormat.Text, out) (String "{" (t +:+ String "}" rest))
  = match render_field' kw t with
    | inl e => inl e
    | inr r => format_run' kw (StrFormat.Text, out +:+ r) rest
    end.
Proof.
  intros Hfree.
  cbn [StrFormat.format_run StrFormat.format_step Ascii.eqb Bool.eqb].
  destruct t as [|c t].
  - rewrite append_nil_l.
    cbn [StrFormat.format_run StrFormat.format_step Ascii.eqb Bool.eqb].
    destruct (render_field' kw EmptyString); reflexivity.
  - apply brace_free_cons in Hfree as (Ho & Hc & Hfree).
    rewrite append_cons. cbn [StrFormat.format_run StrFormat.format_step].
    rewrite Ho, Hc. now rewrite format_run_in_field.
Qed.

Lemma split_field_name (name : string) :
  has_char ":" name = false -> has_char "!" name = false ->
  StrFormat.split_field name = (name, None)
  /\ forall sp, StrFormat.split_field (name +:+ ":" +:+ sp)
                = (name, Some (":"%char, sp)).
Proof.
  induction name as [|c name IH]; intros Hc Hb.
  - split; reflexivity.
  - rewrite has_char_cons in Hc, Hb.
    apply orb_false_elim in Hc as [Hc Hc'], Hb as [Hb Hb'].
    destruct (IH Hc' Hb') as [IH1 IH2].
    rewrite Ascii.eqb_sym in Hc. rewrite Ascii.eqb_sym in Hb.
    split.
    + cbn [StrFormat.split_field]. rewrite Hc, Hb. cbn [orb]. now rewrite IH1.
    + intros sp. rewrite append_cons. cbn [StrFormat.split_field].
      rewrite Hc, Hb. cbn [orb]. now rewrite IH2.
Qed.

(** A plain field is looked up by name and formatted by its spec. *)
Lemma render_field_plain (kw : gmap string pyval) (name : string)
  (spec : option string) :
  plain_name name = true -> plain_spec spec = true ->
  render_field' kw (field_text name spec)
  = match kw !! name with
    | None => inl (KeyError name)
    | Some v => StrFormat.format_value py_format_ext v (default EmptyString spec)
    end.
Proof.
  unfold plain_name. rewrite !andb_true_iff, !negb_true_iff.
  intros (((((Hfree & Hc) & Hb) & Hd) & Hi) & Hdig) Hspec.
  destruct (split_field_name name Hc Hb) as [Hs1 Hs2].
  assert (Hopen : PyStr.contains "{" (field_text name spec) = false).
  { assert (brace_free (field_text name spec) = true) as H.
    { destruct spec as [sp|]; cbn [field_text]; [|exact Hfree].
      rewrite !brace_free_append, Hfree. exact Hspec. }
    unfold brace_free in H. apply andb_true_iff in H as [H _].
    now apply negb_true_iff in H. }
  unfold StrFormat.render_field. rewrite Hopen.
  destruct spec as [sp|]; cbn [field_text default].
  - rewrite Hs2. fold (has_char "." name) (has_char "[" name).
    rewrite Hd, Hi, Hdig. reflexivity.
  - rewrite Hs1. fold (has_char "." name) (has_char "[" name).
    rewrite Hd, Hi, Hdig. reflexivity.
Qed.


Lemma placeholder_shape (name : string) (spec : option string) (post : string) :
  placeholder name spec +:+ post
  = String "{" (field_text name spec +:+ String "}" post).
Proof.
  unfold placeholder.
  now rewrite !append_cons, !append_nil_l, append_assoc, append_cons,
    append_nil_l.
Qed.

(** A template read up to a plain placeholder: the text before it resolved
    to [out], the placeholder is looked up, and the scan goes on after it. *)
Lemma str_format_at_placeholder (kw : gmap string pyval)
  (pre out name : string) (spec : option string) (post : string) :
  format_run' kw (StrFormat.Text, EmptyString) pre = inr (StrFormat.Text, out) ->
  plain_name name = true -> plain_spec spec = true ->
  str_format' (pre +:+ placeholder name spec +:+ post) kw
  = match kw !! name with
    | None => inl (KeyError name)
    | Some v =>
        match StrFormat.format_value py_format_ext v (default EmptyString spec) with
        | inl e => inl e
        | inr r =>
            match format_run' kw (StrFormat.Text, out +:+ r) post with
            | inl e => inl e
            | inr st => StrFormat.format_finish st
            end
        end
    end.
Proof.
  intros Hpre Hname Hspec. unfold StrFormat.str_format.
  rewrite format_run_append, Hpre, placeholder_shape.
  rewrite format_run_placeholder.
  - rewrite (render_field_plain kw name spec Hname Hspec).
    destruct (kw !! name) as [v|]; [|reflexivity].
    destruct (StrFormat.format_value _ _ _); reflexivity.
  - unfold plain_name in Hname. rewrite !andb_true_iff in Hname.
    destruct Hname as (((((Hfree & _) & _) & _) & _) & _).
    destruct spec as [sp|]; cbn [field_text]; [|exact Hfree].
    rewrite !brace_free_append, Hfree. exact Hspec.
Qed.

End FormatLemmas.

(** ** The keyword arguments of the path *)

Lemma format_kwargs_ok (epoch : Z) (batch : option Z) (logs : gmap string num) :
  logs !! "epoch" = None ->
  format_kwargs epoch batch logs
  = inr (list_to_map (format_named epoch batch logs) ∪ (PFloat <$> logs)).
Proof.
  intros He. unfold format_kwargs, StrFormat.keyword_call, format_named.
  destruct batch as [b|].
  - case_bool_decide as Hb; cbn [List.find fst].
    + rewrite bool_decide_eq_false_2; [reflexivity|].
      rewrite He. apply is_Some_None.
    + rewrite bool_decide_eq_false_2 by (rewrite He; apply is_Some_None).
      rewrite bool_decide_eq_false_2 by exact Hb. reflexivity.
  - cbn [List.find fst].
    rewrite bool_decide_eq_false_2; [reflexivity|].
    rewrite He. apply is_Some_None.
Qed.

Lemma format_kwargs_epoch_clash (epoch : Z) (batch : option Z)
  (logs : gmap string num) (v : num) :
  logs !! "epoch" = Some v ->
  exists msg, format_kwargs epoch batch logs = inl (TypeError msg).
Proof.
  intros He. unfold format_kwargs, StrFormat.keyword_call, format_named.
  destruct batch as [b|]; [case_bool_decide|]; cbn [List.find fst];
    (rewrite bool_decide_eq_true_2 by (rewrite He; eauto)); eauto.
Qed.

Lemma kwargs_lookup_epoch (epoch : Z) (batch : option Z) (logs : gmap string num) :
  (list_to_map (format_named epoch batch logs) ∪ (PFloat <$> logs)
     : gmap string pyval) !! "epoch"
  = Some (PInt (epoch + 1)).
Proof.
  apply lookup_union_Some_l. unfold format_named.
  destruct batch as [b|]; [case_bool_decide|]; cbn [list_to_map foldr fst snd];
    apply lookup_insert_eq.
Qed.

Lemma kwargs_lookup_batch (epoch b : Z) (logs : gmap string num) :
  logs !! "batch" = None ->
  (list_to_map (format_named epoch (Some b) logs) ∪ (PFloat <$> logs)
     : gmap string pyval) !! "batch"
  = Some (PInt (b + 1)).
Proof.
  intros Hb. apply lookup_union_Some_l. unfold format_named.
  rewrite bool_decide_eq_false_2 by (rewrite Hb; apply is_Some_None).
  cbn [list_to_map foldr fst snd].
  rewrite lookup_insert_ne by discriminate. apply lookup_insert_eq.
Qed.

(** Every name but [epoch], and [batch] when the call passes it, is looked
    up in the logs. *)
Lemma kwargs_lookup_logs (epoch : Z) (batch : option Z)
  (logs : gmap string num) (name : string) :
  name <> "epoch" ->
  batch = None \/ is_Some (logs !! "batch") \/ name <> "batch" ->
  (list_to_map (format_named epoch batch logs) ∪ (PFloat <$> logs)
     : gmap string pyval) !! name
  = PFloat <$> logs !! name.
Proof.
  intros Hne Hcase. rewrite lookup_union_r; [apply lookup_fmap|].
  unfold format_named.
  destruct batch as [b|]; [case_bool_decide as Hb|]; cbn [list_to_map foldr fst snd].
  - rewrite lookup_insert_ne by congruence. apply lookup_empty.
  - destruct Hcase as [[=] | [Hs | Hnb]]; [contradiction|].
    rewrite !lookup_insert_ne by congruence. apply lookup_empty.
  - rewrite lookup_insert_ne by congruence. apply lookup_empty.
Qed.

(** ** Path resolution *)

Section Paths.
Variable py_format_ext : pyval -> string -> exn + string.
Variable format_field_ext : string -> gmap string pyval -> exn + string.
Variable write_filepath : string -> string.
Variable save_raises : event -> option exn.

Local Abbreviation format_run' :=
  (StrFormat.format_run py_format_ext format_field_ext).
Local Abbreviation str_format' :=
  (StrFormat.str_format py_format_ext format_field_ext).
Local Abbreviation format_file_path' :=
  (format_file_path py_format_ext format_field_ext).
Local Abbreviation get_file_path' :=
  (get_file_path py_format_ext format_field_ext write_filepath).
Local Abbreviation save_model' :=
  (save_model py_format_ext format_field_ext write_filepath save_raises).

(** [_save_model] as a whole: nothing outside the interval; inside it the
    epoch counter is cleared, the path is resolved, and the [try] block
    runs on the resolved path. *)
Lemma save_model_outcome (epoch : Z) (batch : option Z)
  (logs : option (gmap string num)) (s : checkpoint) :
  save_model' epoch batch logs s
  = if interval_reached s then
      match format_file_path' (filepath s) epoch batch (default ∅ logs) with
      | inl e => Outcome (set_epochs_since_last_save 0 s) [] (inl e)
      | inr p =>
          try_with (save_body save_raises epoch (default ∅ logs) (write_filepath p))
            (save_handler (write_filepath p))
            (set_write_filepath (write_filepath p)
               (set_epochs_since_last_save 0 s))
      end
    else Outcome s [] (inr tt).
Proof.
  unfold save_model, bind, get, modify. cbn [self_after result trace].
  destruct (interval_reached s); [|reflexivity].
  rewrite get_file_path_outcome. cbn [filepath set_epochs_since_last_save].
  destruct (format_file_path' _ _ _ _) as [e|p];
    cbn [self_after result trace app]; [reflexivity|].
  destruct (try_with _ _ _); reflexivity.
Qed.

(** What the mapping of the [format] call holds for a name: the epoch,
    the batch when the call passes it, or else the entry of the logs. *)
Lemma format_kwargs_lookup_None (epoch : Z) (batch : option Z)
  (logs : gmap string num) (kw : gmap string pyval) (name : string) :
  format_kwargs epoch batch logs = inr kw ->
  kw !! name = None
  <-> name <> "epoch" /\ (name = "batch" -> batch = None) /\ logs !! name = None.
Proof.
  intros Hkw.
  destruct (logs !! "epoch") as [v|] eqn:He.
  { destruct (format_kwargs_epoch_clash epoch batch logs v He) as [msg Hc].
    congruence. }
  rewrite (format_kwargs_ok epoch batch logs He) in Hkw.
  injection Hkw as <-.
  split.
  - intros Hnone.
    assert (name <> "epoch") as Hne.
    { intros ->. now rewrite kwargs_lookup_epoch in Hnone. }
    assert (name = "batch" -> batch = None) as Hb.
    { intros ->. destruct batch as [b|]; [|reflexivity].
      destruct (logs !! "batch") as [v|] eqn:Hlb.
      - rewrite kwargs_lookup_logs in Hnone by
          (try discriminate; right; left; rewrite Hlb; eauto).
        rewrite Hlb in Hnone. discriminate.
      - now rewrite kwargs_lookup_batch in Hnone. }
    repeat split; [exact Hne | exact Hb |].
    apply lookup_union_None in Hnone as [_ Hl].
    rewrite lookup_fmap in Hl. now destruct (logs !! name).
  - intros (Hne & Hb & Hl).
    rewrite kwargs_lookup_logs; [now rewrite Hl | exact Hne |].
    destruct (String.eqb_spec name "batch") as [E|E]; [left; auto | right; now right].
Qed.

(** A plain placeholder without a value: the [KeyError] of [format] comes
    back as the [KeyError] of [_get_file_path]. *)
Lemma format_file_path_missing (template : string) (epoch : Z)
  (batch : option Z) (logs : gmap string num) (kw : gmap string pyval)
  (pre out name : string) (spec : option string) (post : string) :
  template = pre +:+ placeholder name spec +:+ post ->
  plain_name name = true -> plain_spec spec = true ->
  format_kwargs epoch batch logs = inr kw ->
  format_run' kw (StrFormat.Text, EmptyString) pre = inr (StrFormat.Text, out) ->
  kw !! name = None ->
  format_file_path' template epoch batch logs = inl (format_failure template name).
Proof.
  intros Ht Hname Hspec Hkw Hpre Hnone. unfold format_file_path.
  rewrite Hkw, Ht,
    (str_format_at_placeholder _ _ kw pre out name spec post Hpre Hname Hspec),
    Hnone.
  reflexivity.
Qed.

(** C9, as the code has it: when the logs have no entry named [epoch]
    and the template resolves up to a plain placeholder that is neither the
    epoch, nor the step of a step event, nor a metric of the logs, the
    save attempt fails in [_get_file_path] with the [KeyError] that names
    the template and the [repr] of the placeholder's name; [_save_model]
    has by then cleared its epoch counter and nothing else, it has called
    nothing (no write, no warning), and it hands the error to its
    caller. *)
Theorem C9_missing_placeholder_raises_before_any_write (s : checkpoint)
  (epoch : Z) (batch : option Z) (logs : option (gmap string num))
  (kw : gmap string pyval) (pre out name : string) (spec : option string)
  (post : string) :
  filepath s = pre +:+ placeholder name spec +:+ post ->
  plain_name name = true -> plain_spec spec = true ->
  format_kwargs epoch batch (default ∅ logs) = inr kw ->
  format_run' kw (StrFormat.Text, EmptyString) pre = inr (StrFormat.Text, out) ->
  name <> "epoch" -> (name = "batch" -> batch = None) ->
  default ∅ logs !! name = None ->
  interval_reached s = true ->
  kw !! name = None
  /\ get_file_path' epoch batch (default ∅ logs) s
     = Outcome s [] (inl (format_failure (filepath s) name))
  /\ save_model' epoch batch logs s
     = Outcome (set_epochs_since_last_save 0 s) []
         (inl (format_failure (filepath s) name)).
Proof.
  intros Ht Hname Hspec Hkw Hpre Hne Hb Hl Hint.
  assert (kw !! name = None) as Hnone.
  { apply (format_kwargs_lookup_None epoch batch (default ∅ logs) kw name Hkw).
    auto. }
  pose proof (format_file_path_missing (filepath s) epoch batch (default ∅ logs)
                kw pre out name spec post Ht Hname Hspec Hkw Hpre Hnone) as Hf.
  split; [exact Hnone|]. split.
  - rewrite get_file_path_outcome, Hf. reflexivity.
  - rewrite save_model_outcome, Hint, Hf. reflexivity.
Qed.


(** The [try] block when the monitored metric is not in the logs: the
    warning, then the clean-up of the temporary directory. *)
Lemma save_try_metric_absent (epoch : Z) (logs : gmap string num)
  (path : string) (s : checkpoint) :
  save_best_only s = true -> logs !! monitor s = None ->
  try_with (save_body save_raises epoch logs path) (save_handler path) s
  = match write_filepath_ s with
    | Some p => Outcome s [metric_unavailable (monitor s); RemoveTempDir p] (inr tt)
    | None => Outcome s [metric_unavailable (monitor s)] (inl no_write_filepath)
    end.
Proof.
  intros Hbest Hl.
  unfold try_with, save_body, bind, get, emit. cbn [self_after result trace].
  rewrite Hbest, Hl. cbn [self_after result trace].
  rewrite maybe_remove_file_outcome.
  destruct (write_filepath_ s); reflexivity.
Qed.

(** C8, as the code has it: under [save_best_only], a save event whose
    logs lack the monitored metric never calls the serializer and never
    moves the best value; when the interval is reached and the path
    resolves, it logs the warning, cleans up the temporary directory and
    returns without an exception. *)
Theorem C8_absent_metric_skips_the_save (s : checkpoint) (epoch : Z)
  (batch : option Z) (logs : option (gmap string num)) :
  save_best_only s = true ->
  default ∅ logs !! monitor s = None ->
  best (self_after (save_model' epoch batch logs s)) = best s
  /\ Forall (fun e => is_save_call e = false)
       (trace (save_model' epoch batch logs s))
  /\ (forall p,
        interval_reached s = true ->
        format_file_path' (filepath s) epoch batch (default ∅ logs) = inr p ->
        save_model' epoch batch logs s
        = Outcome
            (set_write_filepath (write_filepath p)
               (set_epochs_since_last_save 0 s))
            [metric_unavailable (monitor s); RemoveTempDir (write_filepath p)]
            (inr tt)).
Proof.
  intros Hbest Hl. rewrite save_model_outcome.
  destruct (interval_reached s).
  - destruct (format_file_path' _ _ _ _) as [e|p].
    + repeat split; [constructor | intros p _ [=]].
    + rewrite save_try_metric_absent by assumption.
      cbn [write_filepath_ set_write_filepath monitor
             set_epochs_since_last_save].
      repeat split.
      * repeat constructor.
      * intros p' _ [= <-]. reflexivity.
  - repeat split; [constructor | intros p [=]].
Qed.



(** C6, as the code has it: when the logs have no entry named [epoch],
    the mapping of the [format] call holds the epoch plus one; it holds the
    step plus one for a step event whose logs have no entry named [batch],
    and the logged value for one whose logs have it; a plain epoch
    placeholder is rendered from the epoch plus one.  The template
    ["ckpt-{epoch:02d}.bin"] at epoch 4 resolves to ["ckpt-05.bin"]. *)
Theorem C6_epoch_and_step_are_one_indexed (epoch : Z) (batch : option Z)
  (logs : gmap string num) :
  logs !! "epoch" = None ->
  exists kw,
    format_kwargs epoch batch logs = inr kw
    /\ kw !! "epoch" = Some (PInt (epoch + 1))
    /\ (forall b, batch = Some b -> logs !! "batch" = None ->
                  kw !! "batch" = Some (PInt (b + 1)))
    /\ (forall v, logs !! "batch" = Some v -> kw !! "batch" = Some (PFloat v))
    /\ (forall pre out spec post,
          format_run' kw (StrFormat.Text, EmptyString) pre
          = inr (StrFormat.Text, out) ->
          plain_spec spec = true ->
          str_format' (pre +:+ placeholder "epoch" spec +:+ post) kw
          = match StrFormat.format_value py_format_ext (PInt (epoch + 1))
                    (default EmptyString spec) with
            | inl e => inl e
            | inr r =>
                match format_run' kw (StrFormat.Text, out +:+ r) post with
                | inl e => inl e
                | inr st => StrFormat.format_finish st
                end
            end)
    /\ (epoch = 4 ->
        format_file_path' "ckpt-{epoch:02d}.bin" epoch batch logs
        = inr "ckpt-05.bin"
        /\ forall s, filepath s = "ckpt-{epoch:02d}.bin" ->
             result (get_file_path' epoch batch logs s)
             = inr (write_filepath "ckpt-05.bin")).
Proof.
  intros He.
  pose proof (format_kwargs_ok epoch batch logs He) as Hkw.
  eexists. split; [exact Hkw|].
  split; [apply kwargs_lookup_epoch|].
  split; [intros b -> Hb; now apply kwargs_lookup_batch|].
  split.
  { intros v Hb. rewrite kwargs_lookup_logs; [now rewrite Hb | discriminate |].
    right. left. rewrite Hb. eauto. }
  assert (forall pre out spec post,
    format_run'
      (list_to_map (format_named epoch batch logs) ∪ (PFloat <$> logs))
      (StrFormat.Text, EmptyString) pre = inr (StrFormat.Text, out) ->
    plain_spec spec = true ->
    str_format' (pre +:+ placeholder "epoch" spec +:+ post)
      (list_to_map (format_named epoch batch logs) ∪ (PFloat <$> logs))
    = match StrFormat.format_value py_format_ext (PInt (epoch + 1))
              (default EmptyString spec) with
      | inl e => inl e
      | inr r =>
          match format_run'
                  (list_to_map (format_named epoch batch logs)
                     ∪ (PFloat <$> logs))
                  (StrFormat.Text, out +:+ r) post with
          | inl e => inl e
          | inr st => StrFormat.format_finish st
          end
      end) as Hsub.
  { intros pre out spec post Hpre Hspec.
    rewrite (str_format_at_placeholder _ _ _ pre out "epoch" spec post Hpre
               eq_refl Hspec).
    now rewrite kwargs_lookup_epoch. }
  split; [exact Hsub|].
  intros ->.
  assert (format_file_path' "ckpt-{epoch:02d}.bin" 4 batch logs
          = inr "ckpt-05.bin") as Hpath.
  { unfold format_file_path. rewrite Hkw.
    change "ckpt-{epoch:02d}.bin"
      with ("ckpt-" +:+ placeholder "epoch" (Some "02d") +:+ ".bin").
    rewrite (Hsub "ckpt-" "ckpt-" (Some "02d") ".bin" eq_refl eq_refl).
    reflexivity. }
  split; [exact Hpath|].
  intros s Hs. rewrite get_file_path_outcome, Hs, Hpath. reflexivity.
Qed.

End Paths.

(** C8, counterexample: the path names the monitored metric, the logs do
    not hold it: the save event ends in the [KeyError] of the path, before
    the metric is looked up, and no warning is logged. *)
Lemma C8_absent_metric_in_the_path_raises :
  save_best_only best_only_by_val_loss = true
  /\ (∅ : gmap string num) !! monitor best_only_by_val_loss = None
  /\ World.call (OnEpochEnd 0 None) best_only_by_val_loss
     = Outcome best_only_by_val_loss []
         (inl (format_failure "weights.{val_loss}.h5" "val_loss")).
Proof.
  split; [reflexivity|]. split; [reflexivity|]. vm_compute. reflexivity.
Qed.

Lemma C8_absent_metric_skips_the_save_witness :
  World.save_model 0 None (Some loss_only)
    (set_epochs_since_last_save 1
       (built (with_save_best_only true (default_args "weights.{epoch:02d}.h5"))))
  = Outcome
      (set_write_filepath "weights.01.h5"
         (built (with_save_best_only true
                   (default_args "weights.{epoch:02d}.h5"))))
      [metric_unavailable "val_loss"; RemoveTempDir "weights.01.h5"]
      (inr tt).
Proof.
  pose proof (C8_absent_metric_skips_the_save
                World.py_format_ext World.format_field_ext World.write_filepath
                World.save_raises
                (set_epochs_since_last_save 1
                   (built (with_save_best_only true
                             (default_args "weights.{epoch:02d}.h5"))))
                0 None (Some loss_only) eq_refl eq_refl) as (_ & _ & H).
  exact (H "weights.01.h5" eq_refl eq_refl).
Defined.

Lemma C9_missing_placeholder_raises_before_any_write_witness :
  World.save_model 0 None (Some loss_only)
    (set_epochs_since_last_save 1 per_epoch_with_metric)
  = Outcome per_epoch_with_metric []
      (inl (format_failure "weights.{epoch:02d}-{val_loss}.h5" "val_loss")).
Proof.
  pose proof (C9_missing_placeholder_raises_before_any_write
                World.py_format_ext World.format_field_ext World.write_filepath
                World.save_raises
                (set_epochs_since_last_save 1 per_epoch_with_metric)
                0 None (Some loss_only)
                (list_to_map (format_named 0 None loss_only)
                   ∪ (PFloat <$> loss_only))
                "weights.{epoch:02d}-" "weights.01-" "val_loss" None ".h5"
                eq_refl eq_refl eq_refl eq_refl eq_refl)
    as H.
  refine (proj2 (proj2 (H _ _ eq_refl eq_refl))); discriminate.
Defined.

(** C9, counterexample: a template that names a metric the logs do not
    hold, and the error is not the missing-placeholder [KeyError]: an
    earlier field whose spec does not fit its value ends the hook in a
    [ValueError], and logs that hold an entry named [epoch] end it in a
    [TypeError]; [except KeyError] catches neither. *)
Lemma C9_another_error_comes_first :
  loss_only !! "val_loss" = None
  /\ (exists msg,
        World.call (OnEpochEnd 0 (Some loss_only)) per_epoch_two_metrics
        = Outcome per_epoch_two_metrics [] (inl (ValueError msg)))
  /\ logs_with_epoch !! "val_loss" = None
  /\ (exists msg,
        World.call (OnEpochEnd 0 (Some logs_with_epoch)) per_epoch_with_metric
        = Outcome per_epoch_with_metric [] (inl (TypeError msg))).
Proof.
  split; [reflexivity|]. split; [eexists; vm_compute; reflexivity|].
  split; [reflexivity|]. eexists; vm_compute; reflexivity.
Qed.

(** The reason of the [KeyError] is the [repr] of the name: a name that
    holds a single quote is written between double quotes. *)
Example missing_name_with_a_quote :
  World.call (OnEpochEnd 0 None) per_epoch_quoted_name
  = Outcome per_epoch_quoted_name []
      (inl (KeyError ("Failed to format this callback filepath: "
                        +:+ PyStr.dquote +:+ "w.{it's}.h5" +:+ PyStr.dquote
                        +:+ ". Reason: "
                        +:+ PyStr.dquote +:+ "it's" +:+ PyStr.dquote))).
Proof. vm_compute. reflexivity. Qed.



(** C6, counterexample: the step event of index 2 with logs that hold a
    [batch] entry passes the logged value to [format], not 3, and the path
    carries the logged value. *)
Lemma C6_logged_batch_replaces_the_step :
  (exists kw,
     format_kwargs 0 (Some 2) logs_with_batch = inr kw
     /\ kw !! "batch" = Some (PFloat (Fin (2 # 1)))
     /\ kw !! "batch" <> Some (PInt (2 + 1)))
  /\ World.format_file_path "w.{batch}.h5" 0 (Some 2) logs_with_batch
     = inr "w.2.0.h5".
Proof.
  split.
  - eexists. split; [reflexivity|]. split; [reflexivity | discriminate].
  - vm_compute. reflexivity.
Qed.

Lemma C6_epoch_and_step_are_one_indexed_witness :
  World.format_file_path "ckpt-{epoch:02d}.bin" 4 (Some 7) loss_only
  = inr "ckpt-05.bin".
Proof.
  destruct (C6_epoch_and_step_are_one_indexed
              World.py_format_ext World.format_field_ext World.write_filepath
              4 (Some 7) loss_only eq_refl) as (kw & _ & _ & _ & _ & _ & H).
  exact (proj1 (H eq_refl)).
Defined.

(** ** The directory scan *)

Section Scan.
Variable re_match : string -> string -> bool.
Variable getmtime : string -> Z.

Local Abbreviation scan_step' := (scan_step re_match getmtime).
Local Abbreviation all_older' := (all_older re_match getmtime).

(** The path kept as largest does not depend on any modification time: it
    is the greatest path of all the matching entries seen. *)
Lemma scan_largest_of_all (dir_name regex : string) (names : list string)
  (st : scan_state) :
  file_path_with_largest_file_name
    (fold_left (scan_step re_match getmtime dir_name regex) names st)
  = fold_left keep_greater
      (map (PyPath.join dir_name)
         (List.filter (fun name => re_match regex name) names))
      (file_path_with_largest_file_name st).
Proof.
  revert st. induction names as [|name names IH]; intros st; [reflexivity|].
  cbn [fold_left List.filter]. rewrite IH. unfold scan_step.
  destruct (re_match regex name); [|reflexivity].
  cbn [map fold_left].
  destruct (_ <? _); [|destruct (_ =? _)]; reflexivity.
Qed.

(** Unless exactly one entry is counted as latest, the scan answers the
    greatest path of all the matching entries, tied for latest or not. *)
Lemma scan_directory_not_sole (gfile_exists : string -> bool)
  (listdir : string -> list string) (dir_name regex : string) :
  gfile_exists dir_name = true ->
  n_file_with_latest_mod_time
    (fold_left (scan_step re_match getmtime dir_name regex)
       (listdir dir_name) scan_init) <> 1 ->
  scan_directory re_match gfile_exists listdir getmtime dir_name regex
  = fold_left keep_greater
      (map (PyPath.join dir_name)
         (List.filter (fun name => re_match regex name) (listdir dir_name)))
      None.
Proof.
  intros Hdir Hn. unfold scan_directory. rewrite Hdir.
  apply Z.eqb_neq in Hn. rewrite Hn. apply scan_largest_of_all.
Qed.

Lemma scan_stays_below (dir_name regex : string) (t : Z)
  (names : list string) (st : scan_state) :
  all_older' dir_name regex t names ->
  latest_mod_time st < t ->
  latest_mod_time (fold_left (scan_step' dir_name regex) names st) < t.
Proof.
  intros Hall. revert st.
  induction Hall as [|name names Hname _ IH]; intros st Hst; [exact Hst|].
  cbn [fold_left]. apply IH. unfold scan_step.
  destruct (re_match regex name); [|exact Hst].
  destruct (Z.ltb_spec (latest_mod_time st)
              (getmtime (PyPath.join dir_name name))); cbn.
  - now apply Hname.
  - destruct (_ =? _); exact Hst.
Qed.

Lemma scan_keeps_latest (dir_name regex : string) (names : list string)
  (st : scan_state) :
  all_older' dir_name regex (latest_mod_time st) names ->
  latest_mod_time (fold_left (scan_step' dir_name regex) names st)
  = latest_mod_time st
  /\ file_path_with_latest_mod_time
       (fold_left (scan_step' dir_name regex) names st)
     = file_path_with_latest_mod_time st
  /\ n_file_with_latest_mod_time
       (fold_left (scan_step' dir_name regex) names st)
     = n_file_with_latest_mod_time st.
Proof.
  revert st. induction names as [|name names IH]; intros st Hall;
    [repeat split|].
  apply Forall_cons in Hall as [Hname Hall].
  cbn [fold_left].
  assert (scan_step' dir_name regex st name
          = ScanState (latest_mod_time st) (file_path_with_latest_mod_time st)
              (n_file_with_latest_mod_time st)
              (file_path_with_largest_file_name
                 (scan_step' dir_name regex st name))) as Hstep.
  { unfold scan_step. destruct (re_match regex name); [|now destruct st].
    specialize (Hname eq_refl).
    destruct (Z.ltb_spec (latest_mod_time st)
                (getmtime (PyPath.join dir_name name))); [lia|].
    destruct (Z.eqb_spec (getmtime (PyPath.join dir_name name))
                (latest_mod_time st)); [lia|]. reflexivity. }
  rewrite Hstep. exact (IH (ScanState _ _ _ _) Hall).
Qed.

(** When one matching entry, of positive modification time, is younger
    than every other matching entry, the scan returns it. *)
Lemma scan_directory_sole_latest (gfile_exists : string -> bool)
  (listdir : string -> list string) (dir_name regex name : string)
  (before after : list string) :
  gfile_exists dir_name = true ->
  listdir dir_name = before ++ name :: after ->
  re_match regex name = true ->
  0 < getmtime (PyPath.join dir_name name) ->
  all_older' dir_name regex (getmtime (PyPath.join dir_name name))
    (before ++ after) ->
  scan_directory re_match gfile_exists listdir getmtime dir_name regex
  = Some (PyPath.join dir_name name).
Proof.
  intros Hdir Hls Hm Hpos Hall. apply Forall_app in Hall as [Hb Ha].
  unfold scan_directory. rewrite Hdir, Hls, fold_left_app. cbn [fold_left].
  pose proof (scan_stays_below dir_name regex _ before scan_init Hb Hpos) as Hlt.
  set (st := fold_left (scan_step' dir_name regex) before scan_init) in *.
  assert (scan_step' dir_name regex st name
          = ScanState (getmtime (PyPath.join dir_name name))
              (Some (PyPath.join dir_name name)) 1
              (file_path_with_largest_file_name
                 (scan_step' dir_name regex st name))) as Hstep.
  { unfold scan_step. rewrite Hm.
    destruct (Z.ltb_spec (latest_mod_time st)
                (getmtime (PyPath.join dir_name name))); [reflexivity | lia]. }
  rewrite Hstep.
  destruct (scan_keeps_latest dir_name regex after
              (ScanState (getmtime (PyPath.join dir_name name))
                 (Some (PyPath.join dir_name name)) 1
                 (file_path_with_largest_file_name
                    (scan_step' dir_name regex st name))) Ha)
    as (_ & Hp & Hn).
  rewrite Hn, Hp. reflexivity.
Qed.

End Scan.


(** The three files of the docstring under one modification time: the
    greatest path is returned. *)
Example locate_three_files_same_time :
  World.locate "tmp/f.batch{batch:02d}epoch{epoch:02d}.h5"
  = Some "tmp/f.batch03epoch02.h5".
Proof. vm_compute. reflexivity. Qed.

(** C2: in the directory [ckpt] two files tie for the latest
    modification time, 200, and a third one is older, 100, with the
    greatest path.  The scan returns the older file; the rule of the specification
    picks the greater of the two tied files. *)
Theorem C2_tie_break_returns_an_older_file :
  World.entries "ckpt" "^w..*.h5$"
  = [("ckpt/w.0.90.h5", 100); ("ckpt/w.0.50.h5", 200); ("ckpt/w.0.40.h5", 200)]
  /\ World.locate "ckpt/w.{val_loss:.2f}.h5" = Some "ckpt/w.0.90.h5"
  /\ spec_locate (World.entries "ckpt" "^w..*.h5$") = Some "ckpt/w.0.50.h5".
Proof. repeat split; vm_compute; reflexivity. Qed.

(** * Further properties *)

(** ** The constructor, further *)

(** The type check of [options] comes first: the constructor raises
    [TypeError] exactly when [options] is neither [None] nor of the class
    that [save_weights_only] asks for, and then no warning has been
    logged. *)
Theorem init_options_type_error (a : init_args) :
  ((exists msg, init a = ([], inl (TypeError msg)))
   <-> options_accepted (a_save_weights_only a) (a_options a) = false)
  /\ (forall tr msg, init a = (tr, inl (TypeError msg)) ->
        tr = []
        /\ options_accepted (a_save_weights_only a) (a_options a) = false).
Proof.
  unfold init.
  destruct (resolve_options (a_save_weights_only a) (a_options a))
    as [e|opts] eqn:Ho.
  - assert (options_accepted (a_save_weights_only a) (a_options a) = false)
      as Hacc.
    { unfold resolve_options in Ho.
      destruct (a_save_weights_only a), (a_options a);
        try discriminate Ho; reflexivity. }
    destruct (resolve_options_TypeError _ _ _ Ho) as [msg ->].
    split; [split; eauto|].
    intros tr msg' [= <- _]. split; [reflexivity | exact Hacc].
  - assert (options_accepted (a_save_weights_only a) (a_options a) = true)
      as Hacc.
    { unfold resolve_options in Ho.
      destruct (a_save_weights_only a), (a_options a);
        try discriminate Ho; reflexivity. }
    destruct (mode_fallback _) as [w2 mode].
    destruct (resolve_mode _ _ _) as [op b].
    destruct (negb _ && negb _).
    + split; [split|].
      * intros [msg [=]].
      * congruence.
      * intros tr msg [=].
    + split; [split|].
      * intros [msg [=]].
      * congruence.
      * intros tr msg [=].
Qed.

(** An explicit mode decides the comparison whatever the metric is
    called, and a threshold that is given is the first best value under
    every mode. *)
Theorem init_explicit_mode (a : init_args) (tr : list event)
  (obj : checkpoint) :
  init a = (tr, inr obj) ->
  (a_mode a = "min" ->
   monitor_op obj = NpLess
   /\ best obj = best_or (a_initial_value_threshold a) PosInf)
  /\ (a_mode a = "max" ->
      monitor_op obj = NpGreater
      /\ best obj = best_or (a_initial_value_threshold a) NegInf)
  /\ (forall b, a_initial_value_threshold a = Some b -> best obj = b).
Proof.
  intros H. unfold init in H.
  destruct (resolve_options _ _); [discriminate H|].
  unfold mode_fallback, resolve_mode in H.
  split; [|split].
  - intros Hm. rewrite Hm in H. cbn in H.
    destruct (negb _ && negb _); [discriminate H|].
    injection H as _ <-. split; reflexivity.
  - intros Hm. rewrite Hm in H. cbn in H.
    destruct (negb _ && negb _); [discriminate H|].
    injection H as _ <-. split; reflexivity.
  - intros b Hb. rewrite Hb in H.
    destruct (negb (PyStr.str_in _ _)); cbn in H.
    + destruct (acc_or_fmeasure _);
        (destruct (negb _ && negb _); [discriminate H|];
         injection H as _ <-; reflexivity).
    + destruct (String.eqb (a_mode a) "min");
        [|destruct (String.eqb (a_mode a) "max");
          [|destruct (acc_or_fmeasure _)]];
        (destruct (negb _ && negb _); [discriminate H|];
         injection H as _ <-; reflexivity).
Qed.

(** ** The step counter over a run *)

Lemma run_batches_cons (b : Z) (rest : list Z) (s : checkpoint) :
  run_batches (b :: rest) s
  = (result (should_save_on_batch b s)
       :: fst (run_batches rest (self_after (should_save_on_batch b s))),
     snd (run_batches rest (self_after (should_save_on_batch b s)))).
Proof.
  cbn [run_batches]. destruct (run_batches rest _). reflexivity.
Qed.

(** With a threshold of at least one, a counter that starts below the
    threshold stays between zero and the threshold over every run of
    non-negative step indices, and no call raises. *)
Theorem step_counter_stays_below_threshold (n : Z) (batches : list Z)
  (s : checkpoint) :
  save_freq s = FreqInt n ->
  1 <= n ->
  0 <= batches_seen_since_last_saving s < n ->
  Forall (fun b => 0 <= b) batches ->
  0 <= batches_seen_since_last_saving (snd (run_batches batches s)) < n
  /\ save_freq (snd (run_batches batches s)) = FreqInt n
  /\ Forall (fun r => exists answer, r = inr answer)
       (fst (run_batches batches s)).
Proof.
  intros Hf Hn Hc Hall. revert s Hf Hc.
  induction Hall as [|b rest Hb _ IH]; intros s Hf Hc.
  - cbn. repeat split; try lia; [exact Hf | constructor].
  - rewrite run_batches_cons. cbn [fst snd].
    rewrite (should_save_on_batch_step s n b Hf). cbn [self_after result].
    pose proof (add_batches_positive (last_batch_seen s) b Hb) as Hadd.
    set (seen := batches_seen_since_last_saving s
                 + add_batches (last_batch_seen s) b) in *.
    destruct (IH (set_batches_seen_since_last_saving
                    (if n <=? seen then 0 else seen)
                    (set_last_batch_seen b s))) as (H1 & H2 & H3).
    + exact Hf.
    + cbn. destruct (Z.leb_spec n seen); lia.
    + repeat split; try apply H1; [exact H2|].
      constructor; [eauto | exact H3].
Qed.

Lemma step_counter_stays_below_threshold_witness :
  0 <= batches_seen_since_last_saving
         (snd (run_batches [0; 3; 4; 1; 7] every_three_steps)) < 3.
Proof.
  refine (proj1 (step_counter_stays_below_threshold 3 [0; 3; 4; 1; 7]
                   every_three_steps eq_refl _ _ _)).
  - lia.
  - cbn. lia.
  - repeat constructor; lia.
Defined.

Lemma unit_step_adds_one (last b : Z) :
  0 <= last -> b = 0 \/ b = last + 1 -> add_batches last b = 1.
Proof.
  intros Hl [-> | ->]; unfold add_batches.
  - destruct (Z.leb_spec 0 last); lia.
  - destruct (Z.leb_spec (last + 1) last); lia.
Qed.

(** One step per call, from a counter [c] below the threshold [n]: the
    call number [i] triggers exactly when [n] divides [c + i], and the
    counter after [k] calls is [(c + k) mod n], across epochs of any
    lengths. *)
Theorem unit_steps_trigger_every_n (n : Z) (batches : list Z)
  (s : checkpoint) :
  save_freq s = FreqInt n ->
  1 <= n ->
  0 <= batches_seen_since_last_saving s < n ->
  0 <= last_batch_seen s ->
  unit_steps (last_batch_seen s) batches ->
  fst (run_batches batches s)
  = map (fun i => inr ((batches_seen_since_last_saving s + 1 + Z.of_nat i)
                         mod n =? 0))
      (seq 0 (length batches))
  /\ batches_seen_since_last_saving (snd (run_batches batches s))
     = (batches_seen_since_last_saving s + Z.of_nat (length batches)) mod n.
Proof.
  intros Hf Hn. revert s Hf.
  induction batches as [|b rest IH]; intros s Hf Hc Hl Hunit.
  - cbn. split; [reflexivity|]. rewrite Z.add_0_r, Z.mod_small; lia.
  - destruct Hunit as [Hb Hrest].
    rewrite run_batches_cons. cbn [fst snd].
    rewrite (should_save_on_batch_step s n b Hf). cbn [self_after result].
    rewrite (unit_step_adds_one _ _ Hl Hb).
    set (c := batches_seen_since_last_saving s) in *.
    set (s' := set_batches_seen_since_last_saving
                 (if n <=? c + 1 then 0 else c + 1)
                 (set_last_batch_seen b s)).
    assert (batches_seen_since_last_saving s' = (c + 1) mod n) as Hc'.
    { subst s'. cbn. destruct (Z.leb_spec n (c + 1)).
      - replace (c + 1) with n by lia. now rewrite Z.mod_same by lia.
      - rewrite Z.mod_small; lia. }
    destruct (IH s') as [IH1 IH2].
    + exact Hf.
    + rewrite Hc'. apply Z.mod_pos_bound. lia.
    + cbn. destruct Hb; lia.
    + exact Hrest.
    + split.
      * cbn [length seq map]. f_equal.
        -- f_equal. rewrite Z.add_0_r.
           destruct (Z.leb_spec n (c + 1)).
           ++ replace (c + 1) with n by lia. now rewrite Z.mod_same by lia.
           ++ rewrite Z.mod_small by lia. symmetry. apply Z.eqb_neq. lia.
        -- rewrite IH1, <- seq_shift, map_map. apply map_ext. intros i.
           rewrite Hc'. do 2 f_equal.
           rewrite Nat2Z.inj_succ.
           rewrite <- Z.add_assoc, Z.add_mod_idemp_l by lia.
           f_equal. lia.
      * rewrite IH2, Hc'. cbn [length]. rewrite Nat2Z.inj_succ.
        rewrite Z.add_mod_idemp_l by lia. f_equal. lia.
Qed.

Lemma unit_steps_trigger_every_n_witness :
  fst (run_batches [0; 1; 2; 0; 1; 2; 0] every_three_steps)
  = map (fun i => inr ((0 + 1 + Z.of_nat i) mod 3 =? 0)) (seq 0 7).
Proof.
  refine (proj1 (unit_steps_trigger_every_n 3 [0; 1; 2; 0; 1; 2; 0]
                   every_three_steps eq_refl _ _ _ _)).
  - lia.
  - cbn. lia.
  - cbn. lia.
  - cbn. repeat split; auto.
Defined.

(** ** The hooks *)

Section Hooks.
Variable py_format_ext : pyval -> string -> exn + string.
Variable format_field_ext : string -> gmap string pyval -> exn + string.
Variable write_filepath : string -> string.
Variable save_raises : event -> option exn.
Variable latest_checkpoint : string -> option string.
Variable re_match : string -> string -> bool.
Variable gfile_exists : string -> bool.
Variable listdir : string -> list string.
Variable getmtime : string -> Z.
Variable load_weights_raises : string -> option exn.

Local Abbreviation save_model' :=
  (save_model py_format_ext format_field_ext write_filepath save_raises).
Local Abbreviation on_train_batch_end' :=
  (on_train_batch_end py_format_ext format_field_ext write_filepath save_raises).
Local Abbreviation on_epoch_end' :=
  (on_epoch_end py_format_ext format_field_ext write_filepath save_raises).
Local Abbreviation on_train_begin' :=
  (on_train_begin latest_checkpoint re_match gfile_exists listdir getmtime
     load_weights_raises).
Local Abbreviation locate' :=
  (get_most_recently_modified_file_matching_pattern latest_checkpoint
     re_match gfile_exists listdir getmtime).
Local Abbreviation call' :=
  (call py_format_ext format_field_ext write_filepath save_raises
     latest_checkpoint re_match gfile_exists listdir getmtime
     load_weights_raises).
Local Abbreviation session' :=
  (session py_format_ext format_field_ext write_filepath save_raises
     latest_checkpoint re_match gfile_exists listdir getmtime
     load_weights_raises).

(** [on_train_begin] never assigns an attribute; without
    [load_weights_on_restart] it does nothing at all; and whatever it does
    is at most one call of [load_weights], on the path the locator found,
    checked to exist. *)
Theorem on_train_begin_loads_at_most_once (s : checkpoint) :
  self_after (on_train_begin' s) = s
  /\ (load_weights_on_restart s = false ->
      on_train_begin' s = Outcome s [] (inr tt))
  /\ (trace (on_train_begin' s) = []
      \/ exists p,
           trace (on_train_begin' s) = [LoadWeights p]
           /\ load_weights_on_restart s = true
           /\ locate' (filepath s) = Some p
           /\ checkpoint_exists gfile_exists p = true).
Proof.
  split; [apply on_train_begin_self|].
  unfold on_train_begin, bind, get, emit, ret, raise.
  cbn [self_after result trace].
  destruct (load_weights_on_restart s); [|split; [reflexivity | now left]].
  split; [discriminate|].
  destruct (locate' (filepath s)) as [p|]; [|now left].
  destruct (checkpoint_exists gfile_exists p) eqn:Hex; [|now left].
  right. exists p. cbn [self_after result trace].
  destruct (load_weights_raises p) as [[]|]; repeat split;
    try reflexivity; exact Hex.
Qed.

(** A load that fails with an [IOError] or a [ValueError] comes back as
    the [ValueError] that names the file and the reason; any other
    exception comes back as it is; a load that succeeds ends the hook
    normally. *)
Theorem on_train_begin_load_errors (s : checkpoint) (p : string) :
  load_weights_on_restart s = true ->
  locate' (filepath s) = Some p ->
  checkpoint_exists gfile_exists p = true ->
  trace (on_train_begin' s) = [LoadWeights p]
  /\ (load_weights_raises p = None -> result (on_train_begin' s) = inr tt)
  /\ (forall e m,
        load_weights_raises p = Some e ->
        e = IOError m \/ e = IsADirectoryError m \/ e = ValueError m ->
        result (on_train_begin' s)
        = inl (ValueError ("Error loading file from " +:+ p
                             +:+ ". Reason: " +:+ m)))
  /\ (forall e,
        load_weights_raises p = Some e ->
        (forall m, e <> IOError m /\ e <> IsADirectoryError m
                   /\ e <> ValueError m) ->
        result (on_train_begin' s) = inl e).
Proof.
  intros Hflag Hloc Hex.
  unfold on_train_begin, bind, get, emit, ret, raise.
  cbn [self_after result trace]. rewrite Hflag, Hloc, Hex.
  cbn [self_after result trace].
  destruct (load_weights_raises p) as [e|] eqn:Hl.
  - repeat split.
    + destruct e; reflexivity.
    + discriminate.
    + intros e' m [= <-] [-> | [-> | ->]]; reflexivity.
    + intros e' [= <-] Hne.
      destruct e as [m|m|m|m|m|m|m]; try reflexivity;
        destruct (Hne m) as (H1 & H2 & H3); congruence.
  - repeat split; intros; discriminate.
Qed.

(** In epoch mode the batch hooks are switched off, and a batch hook that
    is called all the same does nothing. *)
Theorem epoch_mode_ignores_batches (s : checkpoint) (batch : Z)
  (logs : option (gmap string num)) :
  save_freq s = FreqStr "epoch" ->
  implements_train_batch_hooks s = false
  /\ on_train_batch_end' batch logs s = Outcome s [] (inr tt).
Proof.
  intros Hf. split.
  - unfold implements_train_batch_hooks. now rewrite Hf.
  - unfold on_train_batch_end, bind.
    rewrite (should_save_on_batch_epoch s batch Hf). reflexivity.
Qed.

(** A step hook that reaches the threshold before any [on_epoch_begin]
    raises [AttributeError]: the counter is already cleared, nothing is
    saved. *)
Theorem batch_trigger_needs_an_epoch (s : checkpoint) (n batch : Z)
  (logs : option (gmap string num)) :
  save_freq s = FreqInt n ->
  current_epoch s = None ->
  n <= batches_seen_since_last_saving s + add_batches (last_batch_seen s) batch ->
  on_train_batch_end' batch logs s
  = Outcome
      (set_batches_seen_since_last_saving 0 (set_last_batch_seen batch s))
      []
      (inl (AttributeError
              "'ModelCheckpointYolov4' object has no attribute '_current_epoch'")).
Proof.
  intros Hf He Hn. unfold on_train_batch_end, bind.
  rewrite (should_save_on_batch_step s n batch Hf).
  cbn [self_after result trace get].
  apply Z.leb_le in Hn. rewrite Hn.
  cbn [self_after result trace current_epoch
         set_batches_seen_since_last_saving set_last_batch_seen].
  rewrite He. reflexivity.
Qed.

(** In step mode the end of an epoch saves nothing: it adds one to the
    epoch counter and returns. *)
Theorem step_mode_epoch_end_only_counts (s : checkpoint) (epoch : Z)
  (logs : option (gmap string num)) :
  freq_is_epoch (save_freq s) = false ->
  on_epoch_end' epoch logs s
  = Outcome (set_epochs_since_last_save (epochs_since_last_save s + 1) s)
      [] (inr tt).
Proof.
  intros Hf. unfold on_epoch_end, bind, modify, get, ret.
  cbn [self_after result trace save_freq set_epochs_since_last_save].
  rewrite Hf. reflexivity.
Qed.


Lemma same_config_refl (s : checkpoint) : same_config s s.
Proof. repeat split. Qed.

Lemma same_config_trans (a b c : checkpoint) :
  same_config a b -> same_config b c -> same_config a c.
Proof.
  unfold same_config. intros H1 H2.
  destruct H1 as (?&?&?&?&?&?&?&?&?&?&?&?).
  destruct H2 as (?&?&?&?&?&?&?&?&?&?&?&?).
  repeat split; congruence.
Qed.

Lemma save_model_same_config (epoch : Z) (batch : option Z)
  (logs : option (gmap string num)) (s : checkpoint) :
  same_config s (self_after (save_model' epoch batch logs s)).
Proof.
  rewrite save_model_self.
  destruct (interval_reached s); [|apply same_config_refl].
  destruct (format_file_path _ _ _ _ _ _); [repeat split|]. cbn zeta.
  destruct (save_best_only s); [|repeat split].
  destruct (default ∅ logs !! monitor s); [|repeat split].
  destruct (apply_op _ _ _); repeat split.
Qed.

Lemma should_save_on_batch_same_config (batch : Z) (s : checkpoint) :
  same_config s (self_after (should_save_on_batch batch s)).
Proof.
  unfold should_save_on_batch, bind, get, modify, ret, raise.
  cbn [self_after result trace].
  destruct (freq_is_epoch _); [repeat split|].
  cbn [self_after result trace].
  destruct (counter_ge_freq _ _) as [e|[|]]; repeat split.
Qed.

Lemma call_same_config (h : hook) (s : checkpoint) :
  same_config s (self_after (call' h s)).
Proof.
  destruct h as [|epoch|batch logs|epoch logs]; cbn [call].
  - rewrite on_train_begin_self. apply same_config_refl.
  - repeat split.
  - unfold on_train_batch_end.
    apply (R_bind same_config same_config_trans).
    + apply should_save_on_batch_same_config.
    + intros [|] _; [|apply same_config_refl].
      unfold bind, get. cbn [self_after result trace].
      destruct (current_epoch _); [|apply same_config_refl].
      apply save_model_same_config.
  - unfold on_epoch_end.
    apply (R_bind same_config same_config_trans); [repeat split|].
    intros _ _. unfold bind at 1, get. cbn [self_after result trace].
    destruct (freq_is_epoch _); [|apply same_config_refl].
    apply save_model_same_config.
Qed.

(** What the constructor set is never assigned again: over any session
    the path template, the model, the metric and its comparison, the
    flags, the frequency, the period and the options stay as they were. *)
Theorem session_keeps_configuration (hs : list hook) (s : checkpoint) :
  same_config s (session' hs s).
Proof.
  revert s. induction hs as [|h hs IH]; intros s; cbn [session].
  - apply same_config_refl.
  - eapply same_config_trans; [apply call_same_config | apply IH].
Qed.

(** The epoch counter after one hook, in epoch mode. *)
Lemma epoch_mode_counter_step (h : hook) (s : checkpoint) :
  save_freq s = FreqStr "epoch" ->
  epochs_since_last_save (self_after (call' h s))
  = if is_epoch_end h
    then (if period s <=? epochs_since_last_save s + 1 then 0
          else epochs_since_last_save s + 1)
    else epochs_since_last_save s.
Proof.
  intros Hf. destruct h as [|epoch|batch logs|epoch logs];
    cbn [call is_epoch_end].
  - now rewrite on_train_begin_self.
  - reflexivity.
  - unfold on_train_batch_end, bind.
    now rewrite (should_save_on_batch_epoch s batch Hf).
  - unfold on_epoch_end. rewrite self_after_bind.
    cbn [modify self_after result]. rewrite self_after_bind.
    cbn [get self_after result save_freq set_epochs_since_last_save].
    rewrite Hf. cbn [freq_is_epoch String.eqb Ascii.eqb Bool.eqb].
    rewrite save_model_self. unfold interval_reached.
    cbn [save_freq period epochs_since_last_save set_epochs_since_last_save].
    rewrite Hf. cbn [freq_is_int orb].
    destruct (period s <=? epochs_since_last_save s + 1); [|reflexivity].
    destruct (format_file_path _ _ _ _ _ _); [reflexivity|]. cbn zeta.
    cbn [save_best_only monitor monitor_op best set_epochs_since_last_save].
    destruct (save_best_only s); [|reflexivity].
    destruct (default ∅ logs !! monitor s); [|reflexivity].
    destruct (apply_op _ _ _); reflexivity.
Qed.

(** In epoch mode with a period [p] of at least one, the epoch counter
    after any session is the number of epochs ended, counted from the
    counter at the start, modulo [p]: the interval of [_save_model] is
    reached at every [p]-th end of an epoch, whatever the saves did. *)
Theorem epoch_mode_saves_every_period (hs : list hook) (s : checkpoint) :
  save_freq s = FreqStr "epoch" ->
  1 <= period s ->
  0 <= epochs_since_last_save s < period s ->
  epochs_since_last_save (session' hs s)
  = (epochs_since_last_save s
     + Z.of_nat (length (List.filter is_epoch_end hs))) mod period s.
Proof.
  revert s. induction hs as [|h hs IH]; intros s Hf Hp Hc.
  - cbn. rewrite Z.add_0_r, Z.mod_small; lia.
  - cbn [session].
    destruct (call_same_config h s) as (_&_&_&_&_&_&Hf'&_&_&Hp'&_).
    pose proof (epoch_mode_counter_step h s Hf) as Hstep.
    rewrite IH; rewrite ?Hf', ?Hp'; try assumption.
    + rewrite Hstep. cbn [List.filter].
      destruct (is_epoch_end h); [|reflexivity].
      cbn [length]. rewrite Nat2Z.inj_succ.
      destruct (Z.leb_spec (period s) (epochs_since_last_save s + 1)).
      * replace (epochs_since_last_save s) with (period s - 1) by lia.
        replace (period s - 1 + Z.succ (Z.of_nat (length (List.filter is_epoch_end hs))))
          with (Z.of_nat (length (List.filter is_epoch_end hs)) + 1 * period s)
          by lia.
        now rewrite Z.mod_add by lia.
      * f_equal. lia.
    + rewrite Hstep. destruct (is_epoch_end h); [|exact Hc].
      destruct (Z.leb_spec (period s) (epochs_since_last_save s + 1)); lia.
Qed.

End Hooks.

(** ** One save event *)

Section SaveEvent.
Variable py_format_ext : pyval -> string -> exn + string.
Variable format_field_ext : string -> gmap string pyval -> exn + string.
Variable write_filepath : string -> string.
Variable save_raises : event -> option exn.

Local Abbreviation format_file_path' :=
  (format_file_path py_format_ext format_field_ext).
Local Abbreviation save_model' :=
  (save_model py_format_ext format_field_ext write_filepath save_raises).
Local Abbreviation try_save epoch logs path :=
  (try_with (save_body save_raises epoch logs path) (save_handler path)).

Lemma save_handler_raises (path : string) (e : exn) (s : checkpoint) :
  save_handler path e s = Outcome s [] (result (save_handler path e s))
  /\ exists e', result (save_handler path e s) = inl e'.
Proof.
  unfold save_handler. destruct e; try (split; [reflexivity | eauto]).
  destruct (PyStr.contains _ _); split; try reflexivity; eauto.
Qed.

(** The [try] block without [save_best_only]. *)
Lemma save_try_unconditional (epoch : Z) (logs : gmap string num)
  (path wp : string) (s : checkpoint) :
  save_best_only s = false -> write_filepath_ s = Some wp ->
  try_save epoch logs path s
  = match save_raises (save_call s path) with
    | None =>
        Outcome s (saving_lines s epoch path
                     ++ [save_call s path; RemoveTempDir wp]) (inr tt)
    | Some e =>
        Outcome s (saving_lines s epoch path ++ [save_call s path])
          (result (save_handler path e s))
    end.
Proof.
  intros Hb Hw. unfold try_with, save_body, bind, get.
  cbn [self_after result trace]. rewrite Hb, when_emit_outcome.
  cbn [self_after result trace]. rewrite do_save_outcome.
  cbn [self_after result trace]. unfold saving_lines.
  destruct (save_raises (save_call s path)) as [e|];
    cbn [self_after result trace].
  - destruct (save_handler_raises path e s) as [-> _].
    cbn [self_after result trace]. now rewrite app_nil_r.
  - rewrite maybe_remove_file_outcome, Hw. cbn [self_after result trace].
    now rewrite <- app_assoc.
Qed.

(** The [try] block when the logged metric improves on the best value. *)
Lemma save_try_improving (epoch : Z) (logs : gmap string num)
  (path wp : string) (current : num) (s : checkpoint) :
  save_best_only s = true -> write_filepath_ s = Some wp ->
  logs !! monitor s = Some current ->
  apply_op (monitor_op s) current (best s) = true ->
  try_save epoch logs path s
  = match save_raises (save_call s path) with
    | None =>
        Outcome (set_best current s)
          (improved_lines s epoch current path
             ++ [save_call s path; RemoveTempDir wp]) (inr tt)
    | Some e =>
        Outcome (set_best current s)
          (improved_lines s epoch current path ++ [save_call s path])
          (result (save_handler path e (set_best current s)))
    end.
Proof.
  intros Hb Hw Hl Hop. unfold try_with, save_body, bind, get.
  cbn [self_after result trace]. rewrite Hb, Hl, Hop, when_emit_outcome.
  cbn [self_after result trace modify]. rewrite do_save_outcome.
  cbn [self_after result trace]. unfold improved_lines.
  change (save_call (set_best current s) path) with (save_call s path).
  destruct (save_raises (save_call s path)) as [e|];
    cbn [self_after result trace].
  - destruct (save_handler_raises path e (set_best current s)) as [-> _].
    cbn [self_after result trace]. now rewrite !app_nil_r.
  - rewrite maybe_remove_file_outcome.
    cbn [write_filepath_ set_best]. rewrite Hw.
    cbn [self_after result trace]. now rewrite <- !app_assoc.
Qed.

(** The [try] block when the logged metric does not improve. *)
Lemma save_try_not_improving (epoch : Z) (logs : gmap string num)
  (path wp : string) (current : num) (s : checkpoint) :
  save_best_only s = true -> write_filepath_ s = Some wp ->
  logs !! monitor s = Some current ->
  apply_op (monitor_op s) current (best s) = false ->
  try_save epoch logs path s
  = Outcome s (not_improved_lines s epoch ++ [RemoveTempDir wp]) (inr tt).
Proof.
  intros Hb Hw Hl Hop. unfold try_with, save_body, bind, get.
  cbn [self_after result trace]. rewrite Hb, Hl, Hop, when_emit_outcome.
  cbn [self_after result trace]. rewrite maybe_remove_file_outcome, Hw.
  reflexivity.
Qed.


(** Without [save_best_only], a save event whose interval is reached and
    whose path resolves makes one save call on the resolved path, then
    cleans up, and returns; the call saves the weights of the training
    model under [save_weights_only], whether or not a model was named,
    the named model otherwise when one was named, and the training model
    when none was. *)
Theorem plain_save_writes_once (s : checkpoint) (epoch : Z)
  (batch : option Z) (logs : option (gmap string num)) (p : string) :
  save_best_only s = false ->
  interval_reached s = true ->
  format_file_path' (filepath s) epoch batch (default ∅ logs) = inr p ->
  save_raises (save_call s (write_filepath p)) = None ->
  save_model' epoch batch logs s
  = Outcome
      (set_write_filepath (write_filepath p) (set_epochs_since_last_save 0 s))
      (saving_lines s epoch (write_filepath p)
         ++ [save_call s (write_filepath p); RemoveTempDir (write_filepath p)])
      (inr tt)
  /\ (save_weights_only s = true ->
      save_call s (write_filepath p) = SaveWeights (write_filepath p))
  /\ (forall name, save_weights_only s = false -> model_name s = Some name ->
        save_call s (write_filepath p) = SaveNamedModel name (write_filepath p))
  /\ (save_weights_only s = false -> model_name s = None ->
      save_call s (write_filepath p) = SaveModel (write_filepath p)).
Proof.
  intros Hb Hint Hp Hs. split.
  - rewrite save_model_outcome, Hint, Hp.
    rewrite (save_try_unconditional _ _ _ (write_filepath p)) by
      (try reflexivity; exact Hb).
    change (save_call (set_write_filepath _ (set_epochs_since_last_save 0 s)))
      with (save_call s).
    rewrite Hs. reflexivity.
  - unfold save_call. repeat split.
    + now intros ->.
    + now intros name -> ->.
    + now intros -> ->.
Qed.

(** Under [save_best_only], a logged metric that the comparison prefers
    to the best value becomes the best value, and the model is saved once
    on the resolved path. *)
Theorem improving_save_commits_and_writes (s : checkpoint) (epoch : Z)
  (batch : option Z) (logs : option (gmap string num)) (p : string)
  (current : num) :
  save_best_only s = true ->
  interval_reached s = true ->
  format_file_path' (filepath s) epoch batch (default ∅ logs) = inr p ->
  default ∅ logs !! monitor s = Some current ->
  apply_op (monitor_op s) current (best s) = true ->
  save_raises (save_call s (write_filepath p)) = None ->
  save_model' epoch batch logs s
  = Outcome
      (set_best current
         (set_write_filepath (write_filepath p)
            (set_epochs_since_last_save 0 s)))
      (improved_lines s epoch current (write_filepath p)
         ++ [save_call s (write_filepath p); RemoveTempDir (write_filepath p)])
      (inr tt).
Proof.
  intros Hb Hint Hp Hl Hop Hs.
  rewrite save_model_outcome, Hint, Hp.
  rewrite (save_try_improving _ _ _ (write_filepath p) current) by
    (try reflexivity; assumption).
  change (save_call (set_write_filepath _ (set_epochs_since_last_save 0 s)))
    with (save_call s).
  rewrite Hs. reflexivity.
Qed.

(** Under [save_best_only], a logged metric that the comparison does not
    prefer leaves the best value and makes no save call; the event still
    cleans up and returns. *)
Theorem no_improvement_saves_nothing (s : checkpoint) (epoch : Z)
  (batch : option Z) (logs : option (gmap string num)) (p : string)
  (current : num) :
  save_best_only s = true ->
  interval_reached s = true ->
  format_file_path' (filepath s) epoch batch (default ∅ logs) = inr p ->
  default ∅ logs !! monitor s = Some current ->
  apply_op (monitor_op s) current (best s) = false ->
  save_model' epoch batch logs s
  = Outcome
      (set_write_filepath (write_filepath p) (set_epochs_since_last_save 0 s))
      (not_improved_lines s epoch ++ [RemoveTempDir (write_filepath p)])
      (inr tt).
Proof.
  intros Hb Hint Hp Hl Hop.
  rewrite save_model_outcome, Hint, Hp.
  now rewrite (save_try_not_improving _ _ _ (write_filepath p) current).
Qed.

Lemma apply_op_nan_l (op : monitor_op_t) (b : num) : apply_op op NaN b = false.
Proof. destruct op, b; reflexivity. Qed.

Lemma apply_op_nan_r (op : monitor_op_t) (c : num) : apply_op op c NaN = false.
Proof. destruct op, c; reflexivity. Qed.

Lemma filter_saving_lines (s : checkpoint) (epoch : Z) (path : string) :
  List.filter is_save_call (saving_lines s epoch path) = [].
Proof. unfold saving_lines. now destruct (0 <? verbose s). Qed.

Lemma filter_improved_lines (s : checkpoint) (epoch : Z) (c : num)
  (path : string) :
  List.filter is_save_call (improved_lines s epoch c path) = [].
Proof. unfold improved_lines. now destruct (0 <? verbose s). Qed.

Lemma filter_not_improved_lines (s : checkpoint) (epoch : Z) :
  List.filter is_save_call (not_improved_lines s epoch) = [].
Proof. unfold not_improved_lines. now destruct (0 <? verbose s). Qed.

Lemma is_save_call_save_call (s : checkpoint) (path : string) :
  is_save_call (save_call s path) = true.
Proof.
  unfold save_call. destruct (save_weights_only s); [reflexivity|].
  now destruct (model_name s).
Qed.

(** The save calls of one event, in all its branches. *)
Lemma save_model_calls (s : checkpoint) (epoch : Z) (batch : option Z)
  (logs : option (gmap string num)) :
  List.filter is_save_call (trace (save_model' epoch batch logs s))
  = if interval_reached s then
      match format_file_path' (filepath s) epoch batch (default ∅ logs) with
      | inr p =>
          if reaches_save s (default ∅ logs)
          then [save_call s (write_filepath p)] else []
      | inl _ => []
      end
    else [].
Proof.
  rewrite save_model_outcome.
  destruct (interval_reached s); [|reflexivity].
  destruct (format_file_path' _ _ _ _) as [e|p]; [reflexivity|].
  unfold reaches_save.
  destruct (save_best_only s) eqn:Hb.
  - destruct (default ∅ logs !! monitor s) as [current|] eqn:Hl.
    + destruct (apply_op (monitor_op s) current (best s)) eqn:Hop.
      * rewrite (save_try_improving _ _ _ (write_filepath p) current) by
          (try reflexivity; assumption).
        change (save_call (set_write_filepath _ (set_epochs_since_last_save 0 s)))
          with (save_call s).
        destruct (save_raises _); cbn [trace];
          rewrite List.filter_app, filter_improved_lines; cbn [List.filter app];
          now rewrite is_save_call_save_call.
      * rewrite (save_try_not_improving _ _ _ (write_filepath p) current) by
          (try reflexivity; assumption).
        cbn [trace]. rewrite List.filter_app, filter_not_improved_lines.
        reflexivity.
    + rewrite save_try_metric_absent by assumption. reflexivity.
  - rewrite (save_try_unconditional _ _ _ (write_filepath p)) by
      (try reflexivity; exact Hb).
    change (save_call (set_write_filepath _ (set_epochs_since_last_save 0 s)))
      with (save_call s).
    destruct (save_raises _); cbn [trace];
      rewrite List.filter_app, filter_saving_lines; cbn [List.filter app];
      now rewrite is_save_call_save_call.
Qed.

(** One save event makes at most one save call: exactly one, on the
    resolved path, when the interval is reached, the path resolves, and
    either [save_best_only] is off or the logged metric improves; none in
    every other case. *)
Theorem save_called_exactly_when_due (s : checkpoint) (epoch : Z)
  (batch : option Z) (logs : option (gmap string num)) :
  (forall p,
     interval_reached s = true ->
     format_file_path' (filepath s) epoch batch (default ∅ logs) = inr p ->
     reaches_save s (default ∅ logs) = true ->
     List.filter is_save_call (trace (save_model' epoch batch logs s))
     = [save_call s (write_filepath p)])
  /\ (interval_reached s = false
      \/ (exists e, format_file_path' (filepath s) epoch batch (default ∅ logs)
                    = inl e)
      \/ reaches_save s (default ∅ logs) = false ->
      List.filter is_save_call (trace (save_model' epoch batch logs s)) = [])
  /\ (length (List.filter is_save_call (trace (save_model' epoch batch logs s)))
      <= 1)%nat.
Proof.
  rewrite save_model_calls. repeat split.
  - intros p -> -> ->. reflexivity.
  - intros [-> | [[e ->] | Hr]]; [reflexivity | now destruct (interval_reached s) |].
    destruct (interval_reached s); [|reflexivity].
    destruct (format_file_path' _ _ _ _); [reflexivity | now rewrite Hr].
  - destruct (interval_reached s); [|cbn; lia].
    destruct (format_file_path' _ _ _ _); [cbn; lia|].
    destruct (reaches_save _ _); cbn; lia.
Qed.

(** A metric that is NaN, or a best value that is NaN, never saves: under
    [save_best_only] the event makes no save call and leaves the best
    value. *)
Theorem nan_never_saves (s : checkpoint) (epoch : Z) (batch : option Z)
  (logs : option (gmap string num)) :
  save_best_only s = true ->
  default ∅ logs !! monitor s = Some NaN \/ best s = NaN ->
  List.filter is_save_call (trace (save_model' epoch batch logs s)) = []
  /\ best (self_after (save_model' epoch batch logs s)) = best s.
Proof.
  intros Hb Hnan.
  assert (reaches_save s (default ∅ logs) = false) as Hr.
  { unfold reaches_save. rewrite Hb.
    destruct (default ∅ logs !! monitor s) as [c|]; [|reflexivity].
    destruct Hnan as [[= ->] | ->];
      [apply apply_op_nan_l | apply apply_op_nan_r]. }
  split.
  - rewrite save_model_calls.
    destruct (interval_reached s); [|reflexivity].
    destruct (format_file_path' _ _ _ _); [reflexivity | now rewrite Hr].
  - rewrite save_model_self.
    destruct (interval_reached s); [|reflexivity].
    destruct (format_file_path _ _ _ _ _ _); [reflexivity|]. cbn zeta.
    unfold reaches_save in Hr. rewrite Hb in Hr. rewrite Hb.
    destruct (default ∅ logs !! monitor s); [|reflexivity].
    now rewrite Hr.
Qed.

(** The best value is assigned before the save call: when the call
    raises, the event ends in an exception, the clean-up is skipped, and
    the best value is already the new one. *)
Theorem failed_write_keeps_the_new_best (s : checkpoint) (epoch : Z)
  (batch : option Z) (logs : option (gmap string num)) (p : string)
  (current : num) (e : exn) :
  save_best_only s = true ->
  interval_reached s = true ->
  format_file_path' (filepath s) epoch batch (default ∅ logs) = inr p ->
  default ∅ logs !! monitor s = Some current ->
  apply_op (monitor_op s) current (best s) = true ->
  save_raises (save_call s (write_filepath p)) = Some e ->
  best (self_after (save_model' epoch batch logs s)) = current
  /\ (exists e', result (save_model' epoch batch logs s) = inl e')
  /\ trace (save_model' epoch batch logs s)
     = improved_lines s epoch current (write_filepath p)
         ++ [save_call s (write_filepath p)].
Proof.
  intros Hb Hint Hp Hl Hop Hs.
  rewrite save_model_outcome, Hint, Hp.
  rewrite (save_try_improving _ _ _ (write_filepath p) current) by
    (try reflexivity; assumption).
  change (save_call (set_write_filepath _ (set_epochs_since_last_save 0 s)))
    with (save_call s).
  rewrite Hs. cbn [self_after result trace best set_best].
  repeat split. apply save_handler_raises.
Qed.

(** What leaves the [except] clauses when the save call raises: an
    [IsADirectoryError], or an [IOError] whose message says that the path
    is a directory, becomes the [IOError] that names the path (the second
    with a stray [f] before it); every other exception leaves as it is. *)
Theorem save_errors_name_the_directory (s : checkpoint) (epoch : Z)
  (batch : option Z) (logs : option (gmap string num)) (p : string)
  (e : exn) :
  interval_reached s = true ->
  format_file_path' (filepath s) epoch batch (default ∅ logs) = inr p ->
  reaches_save s (default ∅ logs) = true ->
  save_raises (save_call s (write_filepath p)) = Some e ->
  (forall m, e = IsADirectoryError m ->
     result (save_model' epoch batch logs s)
     = inl (IOError (non_directory_message EmptyString (write_filepath p))))
  /\ (forall m, e = IOError m ->
        PyStr.contains "is a directory" (PyStr.lower m) = true ->
        result (save_model' epoch batch logs s)
        = inl (IOError (non_directory_message "f" (write_filepath p))))
  /\ (forall m, e = IOError m ->
        PyStr.contains "is a directory" (PyStr.lower m) = false ->
        result (save_model' epoch batch logs s) = inl e)
  /\ ((forall m, e <> IsADirectoryError m /\ e <> IOError m) ->
      result (save_model' epoch batch logs s) = inl e).
Proof.
  intros Hint Hp Hr Hs.
  assert (result (save_model' epoch batch logs s)
          = result (save_handler (write_filepath p) e s)) as ->.
  { rewrite save_model_outcome, Hint, Hp. unfold reaches_save in Hr.
    destruct (save_best_only s) eqn:Hb.
    - destruct (default ∅ logs !! monitor s) as [current|] eqn:Hl;
        [|discriminate Hr].
      rewrite (save_try_improving _ _ _ (write_filepath p) current) by
        (try reflexivity; assumption).
      change (save_call (set_write_filepath _ (set_epochs_since_last_save 0 s)))
        with (save_call s).
      rewrite Hs. cbn [result]. unfold save_handler.
      destruct e; try reflexivity. now destruct (PyStr.contains _ _).
    - rewrite (save_try_unconditional _ _ _ (write_filepath p)) by
        (try reflexivity; exact Hb).
      change (save_call (set_write_filepath _ (set_epochs_since_last_save 0 s)))
        with (save_call s).
      rewrite Hs. cbn [result]. unfold save_handler.
      destruct e; try reflexivity. now destruct (PyStr.contains _ _). }
  unfold save_handler. repeat split.
  - now intros m ->.
  - intros m -> Hc. now rewrite Hc.
  - intros m -> Hc. now rewrite Hc.
  - intros Hne. destruct e as [m|m|m|m|m|m|m]; try reflexivity;
      destruct (Hne m) as [H1 H2]; congruence.
Qed.

End SaveEvent.

(** ** Path resolution, further *)

Section PathsFurther.
Variable py_format_ext : pyval -> string -> exn + string.
Variable format_field_ext : string -> gmap string pyval -> exn + string.
Variable write_filepath : string -> string.
Variable save_raises : event -> option exn.

Local Abbreviation format_run' :=
  (StrFormat.format_run py_format_ext format_field_ext).
Local Abbreviation str_format' :=
  (StrFormat.str_format py_format_ext format_field_ext).
Local Abbreviation format_file_path' :=
  (format_file_path py_format_ext format_field_ext).
Local Abbreviation get_file_path' :=
  (get_file_path py_format_ext format_field_ext write_filepath).
Local Abbreviation save_model' :=
  (save_model py_format_ext format_field_ext write_filepath save_raises).

(** Text without braces is copied as it is. *)
Lemma format_run_literal (kw : gmap string pyval) (out t : string) :
  brace_free t = true ->
  format_run' kw (StrFormat.Text, out) t = inr (StrFormat.Text, out +:+ t).
Proof.
  revert out. induction t as [|c t IH]; intros out Hfree.
  - now rewrite append_nil_r.
  - apply brace_free_cons in Hfree as (Ho & Hc & Hfree).
    cbn [StrFormat.format_run StrFormat.format_step]. rewrite Ho, Hc.
    rewrite IH by exact Hfree. now rewrite snoc_append.
Qed.

(** A path without any brace needs nothing from the event: when the logs
    have no entry named [epoch], it resolves to itself for every epoch,
    step and logs, and the path handed to the writer is recorded in
    [_write_filepath]. *)
Theorem path_without_placeholders_is_kept (s : checkpoint) (epoch : Z)
  (batch : option Z) (logs : gmap string num) :
  brace_free (filepath s) = true ->
  logs !! "epoch" = None ->
  get_file_path' epoch batch logs s
  = Outcome (set_write_filepath (write_filepath (filepath s)) s) []
      (inr (write_filepath (filepath s))).
Proof.
  intros Hfree He. rewrite get_file_path_outcome.
  unfold format_file_path. rewrite (format_kwargs_ok epoch batch logs He).
  unfold StrFormat.str_format.
  rewrite (format_run_literal _ EmptyString (filepath s) Hfree).
  reflexivity.
Qed.

(** Logs that hold an entry named [epoch] clash with the keyword of the
    [format] call: whatever the template, the save event ends in a
    [TypeError], before any save call, with the epoch counter cleared. *)
Theorem logged_epoch_breaks_the_path (s : checkpoint) (epoch : Z)
  (batch : option Z) (logs : gmap string num) (v : num) :
  logs !! "epoch" = Some v ->
  interval_reached s = true ->
  exists msg,
    format_file_path' (filepath s) epoch batch logs = inl (TypeError msg)
    /\ save_model' epoch batch (Some logs) s
       = Outcome (set_epochs_since_last_save 0 s) [] (inl (TypeError msg)).
Proof.
  intros He Hint.
  destruct (format_kwargs_epoch_clash epoch batch logs v He) as [msg Hc].
  exists msg.
  assert (format_file_path' (filepath s) epoch batch logs
          = inl (TypeError msg)) as Hf.
  { unfold format_file_path. now rewrite Hc. }
  split; [exact Hf|].
  rewrite save_model_outcome, Hint.
  change (default ∅ (Some logs)) with logs. now rewrite Hf.
Qed.

(** A plain placeholder named after a logged metric is filled with the
    logged value, formatted by the placeholder's spec; only the names
    [epoch] and, on a step event without a logged [batch], [batch] are
    taken from the event instead. *)
Theorem metric_placeholder_takes_the_logged_value (epoch : Z)
  (batch : option Z) (logs : gmap string num) (kw : gmap string pyval)
  (pre out name : string) (spec : option string) (post : string) (v : num) :
  format_kwargs epoch batch logs = inr kw ->
  format_run' kw (StrFormat.Text, EmptyString) pre = inr (StrFormat.Text, out) ->
  plain_name name = true -> plain_spec spec = true ->
  name <> "epoch" -> name <> "batch" ->
  logs !! name = Some v ->
  kw !! name = Some (PFloat v)
  /\ str_format' (pre +:+ placeholder name spec +:+ post) kw
     = match py_format_ext (PFloat v) (default EmptyString spec) with
       | inl e => inl e
       | inr r =>
           match format_run' kw (StrFormat.Text, out +:+ r) post with
           | inl e => inl e
           | inr st => StrFormat.format_finish st
           end
       end.
Proof.
  intros Hkw Hpre Hname Hspec Hne Hnb Hl.
  assert (kw !! name = Some (PFloat v)) as Hv.
  { destruct (logs !! "epoch") as [w|] eqn:He.
    - destruct (format_kwargs_epoch_clash epoch batch logs w He) as [msg Hc].
      congruence.
    - rewrite (format_kwargs_ok epoch batch logs He) in Hkw.
      injection Hkw as <-.
      rewrite kwargs_lookup_logs by auto. now rewrite Hl. }
  split; [exact Hv|].
  rewrite (str_format_at_placeholder _ _ kw pre out name spec post Hpre Hname
             Hspec), Hv.
  reflexivity.
Qed.

End PathsFurther.

(** ** The locator, further *)

Lemma str_gt_leb (a b : string) : PyPath.str_gt a b = negb (String.leb a b).
Proof.
  unfold PyPath.str_gt, String.ltb, String.leb.
  rewrite (String.compare_antisym b a).
  now destruct (String.compare a b).
Qed.

Lemma keep_greater_upper (acc : option string) (path m : string) :
  keep_greater acc path = Some m ->
  String.le path m
  /\ (forall a, acc = Some a -> String.le a m)
  /\ (m = path \/ acc = Some m).
Proof.
  unfold keep_greater. destruct acc as [l|].
  - rewrite str_gt_leb. destruct (String.leb path l) eqn:E; cbn;
      intros [= <-].
    + repeat split; [now apply Is_true_true | | now right].
      intros a [= ->]. apply (reflexivity (R := String.le)).
    + repeat split; [apply (reflexivity (R := String.le)) | | now left].
      intros a [= ->]. destruct (String.leb_total a path) as [H|H];
        [now apply Is_true_true | congruence].
  - intros [= <-].
    repeat split; [apply (reflexivity (R := String.le)) | | now left].
    intros a [=].
Qed.

Lemma keep_greater_is_some (acc : option string) (path : string) :
  keep_greater acc path <> None.
Proof.
  unfold keep_greater. destruct acc as [l|]; [|discriminate].
  destruct (PyPath.str_gt path l); discriminate.
Qed.

(** The fold of [keep_greater] ends on an element of the list, or on its
    start, that no element is greater than. *)
Lemma fold_keep_greater (paths : list string) (acc : option string) :
  match fold_left keep_greater paths acc with
  | Some m =>
      (In m paths \/ acc = Some m)
      /\ (forall x, In x paths -> String.le x m)
      /\ (forall a, acc = Some a -> String.le a m)
  | None => paths = [] /\ acc = None
  end.
Proof.
  revert acc. induction paths as [|p paths IH]; intros acc.
  - cbn. destruct acc as [a|]; [|now split].
    repeat split; [now right | intros x [] |].
    intros a' [= ->]. apply (reflexivity (R := String.le)).
  - cbn [fold_left]. specialize (IH (keep_greater acc p)).
    destruct (fold_left keep_greater paths (keep_greater acc p)) as [m|].
    + destruct IH as (Hin & Hall & Hacc).
      destruct (keep_greater acc p) as [k|] eqn:Hk;
        [|now apply keep_greater_is_some in Hk].
      destruct (keep_greater_upper acc p k Hk) as (Hp & Ha & Hor).
      pose proof (Hacc k eq_refl) as Hkm.
      repeat split.
      * destruct Hin as [Hin | [= ->]]; [left; now right|].
        destruct Hor as [-> | ->]; [left; now left | now right].
      * intros x [<- | Hx]; [|now apply Hall].
        eapply (transitivity (R := String.le)); eassumption.
      * intros a Hacc'. eapply (transitivity (R := String.le)); [|exact Hkm].
        now apply Ha.
    + destruct IH as [_ Hk]. now apply keep_greater_is_some in Hk.
Qed.

Section Locator.
Variable latest_checkpoint : string -> option string.
Variable re_match : string -> string -> bool.
Variable gfile_exists : string -> bool.
Variable listdir : string -> list string.
Variable getmtime : string -> Z.

Local Abbreviation scan_step' := (scan_step re_match getmtime).
Local Abbreviation scan_directory' :=
  (scan_directory re_match gfile_exists listdir getmtime).
Local Abbreviation locate' :=
  (get_most_recently_modified_file_matching_pattern latest_checkpoint
     re_match gfile_exists listdir getmtime).

Lemma scan_skips_the_rest (dir_name regex : string) (names : list string)
  (st : scan_state) :
  Forall (fun name => re_match regex name = false) names ->
  fold_left (scan_step' dir_name regex) names st = st.
Proof.
  intros Hall. revert st.
  induction Hall as [|name names Hname _ IH]; intros st; [reflexivity|].
  cbn [fold_left]. unfold scan_step at 2. rewrite Hname. apply IH.
Qed.

(** A marker whose file name matches the pattern is returned at once,
    whatever the directory holds; without such a marker, a directory that
    does not exist or lists no matching name gives no candidate. *)
Theorem locator_marker_first_then_nothing (pattern : string) :
  (forall c,
     latest_checkpoint (PyPath.dirname pattern) = Some c ->
     re_match (pattern_regex pattern) (PyPath.basename c) = true ->
     locate' pattern = Some c)
  /\ ((latest_checkpoint (PyPath.dirname pattern) = None
       \/ exists c, latest_checkpoint (PyPath.dirname pattern) = Some c
                    /\ re_match (pattern_regex pattern) (PyPath.basename c)
                       = false) ->
      (gfile_exists (PyPath.dirname pattern) = false
       \/ Forall (fun name => re_match (pattern_regex pattern) name = false)
            (listdir (PyPath.dirname pattern))) ->
      locate' pattern = None).
Proof.
  unfold get_most_recently_modified_file_matching_pattern.
  fold (pattern_regex pattern). split.
  - intros c -> ->. reflexivity.
  - intros Hmark Hdir.
    assert (scan_directory' (PyPath.dirname pattern) (pattern_regex pattern)
            = None) as Hscan.
    { unfold scan_directory. destruct Hdir as [-> | Hall]; [reflexivity|].
      rewrite (scan_skips_the_rest _ _ _ _ Hall).
      now destruct (gfile_exists _). }
    destruct Hmark as [-> | (c & -> & ->)]; exact Hscan.
Qed.

(** What the scan keeps in its two path variables comes from the
    listing. *)
Lemma scan_paths_are_listed (dir_name regex : string) (P : string -> Prop)
  (names : list string) (st : scan_state) :
  (forall name, In name names -> re_match regex name = true ->
                P (PyPath.join dir_name name)) ->
  (forall p, file_path_with_latest_mod_time st = Some p -> P p) ->
  (forall p, file_path_with_largest_file_name st = Some p -> P p) ->
  (forall p, file_path_with_latest_mod_time
               (fold_left (scan_step' dir_name regex) names st) = Some p -> P p)
  /\ (forall p, file_path_with_largest_file_name
                  (fold_left (scan_step' dir_name regex) names st) = Some p ->
                P p).
Proof.
  revert st. induction names as [|name names IH]; intros st HP H1 H2;
    [now split|].
  cbn [fold_left]. apply IH.
  - intros n Hn. apply HP. now right.
  - unfold scan_step. destruct (re_match regex name) eqn:Hm; [|exact H1].
    destruct (_ <? _); [|destruct (_ =? _)]; cbn; try exact H1.
    intros p [= <-]. apply HP; [now left | exact Hm].
  - unfold scan_step. destruct (re_match regex name) eqn:Hm; [|exact H2].
    assert (forall p,
      match file_path_with_largest_file_name st with
      | Some l => if PyPath.str_gt (PyPath.join dir_name name) l
                  then Some (PyPath.join dir_name name) else Some l
      | None => Some (PyPath.join dir_name name)
      end = Some p -> P p) as Hl.
    { intros p. destruct (file_path_with_largest_file_name st) as [l|].
      - destruct (PyPath.str_gt _ _); intros [= <-];
          [apply HP; [now left | exact Hm] | now apply H2].
      - intros [= <-]. apply HP; [now left | exact Hm]. }
    destruct (_ <? _); [|destruct (_ =? _)]; exact Hl.
Qed.

(** The scan only ever returns a file of the directory whose name
    matches the pattern. *)
Theorem scan_returns_a_listed_match (dir_name regex p : string) :
  scan_directory' dir_name regex = Some p ->
  gfile_exists dir_name = true
  /\ exists name,
       In name (listdir dir_name)
       /\ re_match regex name = true
       /\ p = PyPath.join dir_name name.
Proof.
  unfold scan_directory. destruct (gfile_exists dir_name).
  - intros H. split; [reflexivity|].
    destruct (scan_paths_are_listed dir_name regex
                (fun q => exists name, In name (listdir dir_name)
                                       /\ re_match regex name = true
                                       /\ q = PyPath.join dir_name name)
                (listdir dir_name) scan_init) as [H1 H2].
    + intros name Hin Hm. eauto.
    + intros q [=].
    + intros q [=].
    + destruct (_ =? 1); [now apply H1 | now apply H2].
  - cbn. intros [=].
Qed.

(** The invariant of the scan over entries that share one positive
    modification time. *)
Lemma scan_same_time (dir_name regex : string) (t : Z) (names : list string)
  (st : scan_state) :
  0 < t ->
  Forall (fun name => re_match regex name = true ->
                      getmtime (PyPath.join dir_name name) = t) names ->
  (st = scan_init
   \/ (latest_mod_time st = t
       /\ (n_file_with_latest_mod_time st = 1 ->
           file_path_with_latest_mod_time st
           = file_path_with_largest_file_name st)
       /\ 1 <= n_file_with_latest_mod_time st)) ->
  let st' := fold_left (scan_step' dir_name regex) names st in
  (if n_file_with_latest_mod_time st' =? 1
   then file_path_with_latest_mod_time st'
   else file_path_with_largest_file_name st')
  = file_path_with_largest_file_name st'.
Proof.
  intros Ht Hall. revert st.
  induction Hall as [|name names Hname _ IH]; intros st Hst.
  - cbn. destruct Hst as [-> | (_ & H1 & _)]; [reflexivity|].
    destruct (Z.eqb_spec (n_file_with_latest_mod_time st) 1); auto.
  - cbn [fold_left]. apply IH. unfold scan_step.
    destruct (re_match regex name) eqn:Hm; [|exact Hst].
    rewrite (Hname eq_refl). right.
    destruct Hst as [-> | (Hl & H1 & Hn)].
    + cbn. destruct (Z.ltb_spec 0 t); [|lia]. cbn. repeat split; lia.
    + rewrite Hl, Z.ltb_irrefl, Z.eqb_refl. cbn. repeat split; lia.
Qed.

(** When every matching file has the same positive modification time,
    the scan returns the greatest of their paths: one of them, with no
    matching path above it. *)
Theorem same_time_returns_greatest_path (dir_name regex : string) (t : Z) :
  gfile_exists dir_name = true ->
  0 < t ->
  Forall (fun name => re_match regex name = true ->
                      getmtime (PyPath.join dir_name name) = t)
    (listdir dir_name) ->
  scan_directory' dir_name regex
  = fold_left keep_greater
      (map (PyPath.join dir_name)
         (List.filter (fun name => re_match regex name) (listdir dir_name)))
      None
  /\ (forall m, scan_directory' dir_name regex = Some m ->
        forall name, In name (listdir dir_name) ->
                     re_match regex name = true ->
                     String.le (PyPath.join dir_name name) m)
  /\ (scan_directory' dir_name regex = None ->
      Forall (fun name => re_match regex name = false) (listdir dir_name)).
Proof.
  intros Hdir Ht Hall.
  assert (scan_directory' dir_name regex
          = fold_left keep_greater
              (map (PyPath.join dir_name)
                 (List.filter (fun name => re_match regex name)
                    (listdir dir_name))) None) as Hscan.
  { unfold scan_directory. rewrite Hdir.
    rewrite (scan_same_time dir_name regex t (listdir dir_name) scan_init Ht
               Hall (or_introl eq_refl)).
    apply scan_largest_of_all. }
  split; [exact Hscan|]. rewrite Hscan.
  pose proof (fold_keep_greater
                (map (PyPath.join dir_name)
                   (List.filter (fun name => re_match regex name)
                      (listdir dir_name))) None) as Hfold.
  destruct (fold_left keep_greater _ None) as [m|].
  - destruct Hfold as (_ & Hmax & _). split; [|intros [=]].
    intros m' [= <-] name Hin Hm. apply Hmax.
    apply in_map. apply List.filter_In. now split.
  - destruct Hfold as [Hnil _]. split; [intros m [=]|]. intros _.
    apply Forall_forall. intros name Hin.
    destruct (re_match regex name) eqn:Hm; [|reflexivity].
    assert (In (PyPath.join dir_name name)
              (map (PyPath.join dir_name)
                 (List.filter (fun name => re_match regex name)
                    (listdir dir_name)))) as Hc.
    { apply in_map. apply List.filter_In. split; [|exact Hm].
      now apply list_elem_of_In. }
    rewrite Hnil in Hc. destruct Hc.
Qed.

End Locator.

(** ** The learning-rate schedule *)

(** The schedule depends on the epoch through its remainder by the cycle
    length only: shifting the epoch by whole cycles changes neither the
    rate nor the error, the rate passed in plays no part, and a cycle
    length of zero raises [ZeroDivisionError] at every epoch. *)
Theorem schedule_is_periodic (float : Type)
  (fadd fsub fmul fdiv : float -> float -> float)
  (math_cos : float -> option float) (math_pi one two : float)
  (float_of_int : Z -> option float)
  (self : CosineAnnealingScheduler float) (epoch k : Z) (lr lr' : float) :
  schedule float fadd fsub fmul fdiv math_cos math_pi one two float_of_int
    self (epoch + k * epochs_per_cycle float self) lr'
  = schedule float fadd fsub fmul fdiv math_cos math_pi one two float_of_int
      self epoch lr
  /\ (epochs_per_cycle float self = 0 ->
      schedule float fadd fsub fmul fdiv math_cos math_pi one two float_of_int
        self epoch lr = inl ZeroDivisionError).
Proof.
  unfold schedule.
  destruct (Z.eqb_spec (epochs_per_cycle float self) 0) as [E|E].
  - split; reflexivity.
  - rewrite Z.mod_add by exact E. split; [reflexivity | contradiction].
Qed.

(** ** Instances *)

Lemma init_explicit_mode_witness :
  monitor_op (built (with_mode "max" (default_args "weights.h5"))) = NpGreater.
Proof.
  exact (proj1 (proj1 (proj2
    (init_explicit_mode (with_mode "max" (default_args "weights.h5")) []
       (built (with_mode "max" (default_args "weights.h5"))) eq_refl))
    eq_refl)).
Defined.

Lemma on_train_begin_load_errors_witness :
  result (on_train_begin World.latest_checkpoint World.re_match
            World.gfile_exists World.listdir World.getmtime
            World.load_weights_raises restarting)
  = inr tt.
Proof.
  refine (proj1 (proj2
    (on_train_begin_load_errors World.latest_checkpoint World.re_match
       World.gfile_exists World.listdir World.getmtime
       World.load_weights_raises restarting "ckpt/w.0.90.h5" eq_refl _ _))
    eq_refl).
  - vm_compute. reflexivity.
  - vm_compute. reflexivity.
Defined.

Lemma epoch_mode_ignores_batches_witness :
  on_train_batch_end World.py_format_ext World.format_field_ext
    World.write_filepath World.save_raises 5 None
    (built (default_args "weights.h5"))
  = Outcome (built (default_args "weights.h5")) [] (inr tt).
Proof.
  exact (proj2 (epoch_mode_ignores_batches World.py_format_ext
                  World.format_field_ext World.write_filepath
                  World.save_raises (built (default_args "weights.h5"))
                  5 None eq_refl)).
Defined.

Lemma batch_trigger_needs_an_epoch_witness :
  result (on_train_batch_end World.py_format_ext World.format_field_ext
            World.write_filepath World.save_raises 0 None
            (set_batches_seen_since_last_saving 2 every_three_steps))
  = inl (AttributeError
           "'ModelCheckpointYolov4' object has no attribute '_current_epoch'").
Proof.
  rewrite (batch_trigger_needs_an_epoch World.py_format_ext
             World.format_field_ext World.write_filepath World.save_raises
             (set_batches_seen_since_last_saving 2 every_three_steps)
             3 0 None eq_refl eq_refl).
  - reflexivity.
  - vm_compute. discriminate.
Defined.

Lemma step_mode_epoch_end_only_counts_witness :
  trace (on_epoch_end World.py_format_ext World.format_field_ext
           World.write_filepath World.save_raises 0 None every_three_steps)
  = [].
Proof.
  rewrite (step_mode_epoch_end_only_counts World.py_format_ext
             World.format_field_ext World.write_filepath World.save_raises
             every_three_steps 0 None eq_refl).
  reflexivity.
Defined.

Lemma epoch_mode_saves_every_period_witness :
  epochs_since_last_save
    (World.session
       [OnEpochBegin 0; OnEpochEnd 0 None; OnEpochBegin 1; OnEpochEnd 1 None;
        OnEpochBegin 2; OnEpochEnd 2 None] every_second_epoch)
  = (0 + 3) mod 2.
Proof.
  refine (epoch_mode_saves_every_period World.py_format_ext
            World.format_field_ext World.write_filepath World.save_raises
            World.latest_checkpoint World.re_match World.gfile_exists
            World.listdir World.getmtime World.load_weights_raises
            [OnEpochBegin 0; OnEpochEnd 0 None; OnEpochBegin 1;
             OnEpochEnd 1 None; OnEpochBegin 2; OnEpochEnd 2 None]
            every_second_epoch eq_refl _ _).
  - vm_compute. discriminate.
  - vm_compute. split; [discriminate | reflexivity].
Defined.

Lemma plain_save_writes_once_witness :
  World.save_model 0 None None epoch_ended
  = Outcome
      (set_write_filepath "weights.01.h5"
         (set_epochs_since_last_save 0 epoch_ended))
      [SaveModel "weights.01.h5"; RemoveTempDir "weights.01.h5"] (inr tt).
Proof.
  exact (proj1 (plain_save_writes_once World.py_format_ext
                  World.format_field_ext World.write_filepath
                  World.save_raises epoch_ended 0 None None "weights.01.h5"
                  eq_refl eq_refl eq_refl eq_refl)).
Defined.

Lemma improving_save_commits_and_writes_witness :
  best (self_after (World.save_model 0 None (Some val_loss_half)
                      epoch_ended_best_only))
  = Fin (1 # 2).
Proof.
  unfold World.save_model.
  rewrite (improving_save_commits_and_writes World.py_format_ext
             World.format_field_ext World.write_filepath World.save_raises
             epoch_ended_best_only 0 None (Some val_loss_half)
             "weights.01.h5" (Fin (1 # 2))
             eq_refl eq_refl eq_refl eq_refl eq_refl eq_refl).
  reflexivity.
Defined.

Lemma no_improvement_saves_nothing_witness :
  World.save_model 0 None (Some val_loss_half) epoch_ended_quarter
  = Outcome
      (set_write_filepath "weights.01.h5"
         (set_epochs_since_last_save 0 epoch_ended_quarter))
      [RemoveTempDir "weights.01.h5"] (inr tt).
Proof.
  exact (no_improvement_saves_nothing World.py_format_ext
           World.format_field_ext World.write_filepath World.save_raises
           epoch_ended_quarter 0 None (Some val_loss_half) "weights.01.h5"
           (Fin (1 # 2)) eq_refl eq_refl eq_refl eq_refl eq_refl).
Defined.

Lemma nan_never_saves_witness :
  List.filter is_save_call
    (trace (World.save_model 0 None (Some val_loss_nan) epoch_ended_best_only))
  = [].
Proof.
  exact (proj1 (nan_never_saves World.py_format_ext World.format_field_ext
                  World.write_filepath World.save_raises
                  epoch_ended_best_only 0 None (Some val_loss_nan)
                  eq_refl (or_introl eq_refl))).
Defined.

Lemma failed_write_keeps_the_new_best_witness :
  best (self_after
          (save_model World.py_format_ext World.format_field_ext
             World.write_filepath disk_full 0 None (Some val_loss_half)
             epoch_ended_best_only))
  = Fin (1 # 2).
Proof.
  exact (proj1 (failed_write_keeps_the_new_best World.py_format_ext
                  World.format_field_ext World.write_filepath disk_full
                  epoch_ended_best_only 0 None (Some val_loss_half)
                  "weights.01.h5" (Fin (1 # 2))
                  (IOError "No space left on device")
                  eq_refl eq_refl eq_refl eq_refl eq_refl eq_refl)).
Defined.

Lemma save_errors_name_the_directory_witness :
  result (save_model World.py_format_ext World.format_field_ext
            World.write_filepath finds_directory 0 None None epoch_ended)
  = inl (IOError (non_directory_message EmptyString "weights.01.h5")).
Proof.
  exact (proj1 (save_errors_name_the_directory World.py_format_ext
                  World.format_field_ext World.write_filepath finds_directory
                  epoch_ended 0 None None "weights.01.h5"
                  (IsADirectoryError "Is a directory")
                  eq_refl eq_refl eq_refl eq_refl)
           "Is a directory" eq_refl).
Defined.

Lemma path_without_placeholders_is_kept_witness :
  result (get_file_path World.py_format_ext World.format_field_ext
            World.write_filepath 7 (Some 3) loss_only
            (built (default_args "weights.h5")))
  = inr "weights.h5".
Proof.
  rewrite (path_without_placeholders_is_kept World.py_format_ext
             World.format_field_ext World.write_filepath
             (built (default_args "weights.h5")) 7 (Some 3) loss_only
             eq_refl eq_refl).
  reflexivity.
Defined.

Lemma logged_epoch_breaks_the_path_witness :
  exists msg,
    World.save_model 0 None (Some logs_with_epoch) epoch_ended
    = Outcome (set_epochs_since_last_save 0 epoch_ended) []
        (inl (TypeError msg)).
Proof.
  destruct (logged_epoch_breaks_the_path World.py_format_ext
              World.format_field_ext World.write_filepath World.save_raises
              epoch_ended 0 None logs_with_epoch (Fin (3 # 1))
              eq_refl eq_refl) as (msg & _ & H).
  exists msg. exact H.
Defined.

Lemma metric_placeholder_takes_the_logged_value_witness :
  (list_to_map (format_named 0 None val_loss_half) ∪ (PFloat <$> val_loss_half)
     : gmap string pyval) !! "val_loss"
  = Some (PFloat (Fin (1 # 2))).
Proof.
  exact (proj1 (metric_placeholder_takes_the_logged_value
                  World.py_format_ext World.format_field_ext 0 None
                  val_loss_half
                  (list_to_map (format_named 0 None val_loss_half)
                     ∪ (PFloat <$> val_loss_half))
                  "weights." "weights." "val_loss" (Some ".2f") ".h5"
                  (Fin (1 # 2))
                  eq_refl eq_refl eq_refl eq_refl
                  ltac:(discriminate) ltac:(discriminate) eq_refl)).
Defined.

Lemma scan_returns_a_listed_match_witness :
  exists name,
    In name (World.listdir "ckpt")
    /\ World.re_match "^w..*.h5$" name = true
    /\ "ckpt/w.0.90.h5" = PyPath.join "ckpt" name.
Proof.
  refine (proj2 (scan_returns_a_listed_match World.re_match World.gfile_exists
                   World.listdir World.getmtime "ckpt" "^w..*.h5$"
                   "ckpt/w.0.90.h5" _)).
  vm_compute. reflexivity.
Defined.

Lemma same_time_returns_greatest_path_witness :
  scan_directory World.re_match World.gfile_exists World.listdir
    World.getmtime "tmp" "^f.batch.*epoch.*.h5$"
  = fold_left keep_greater
      (map (PyPath.join "tmp")
         (List.filter (fun name => World.re_match "^f.batch.*epoch.*.h5$" name)
            (World.listdir "tmp")))
      None.
Proof.
  refine (proj1 (same_time_returns_greatest_path World.re_match
                   World.gfile_exists World.listdir World.getmtime
                   "tmp" "^f.batch.*epoch.*.h5$" 50 eq_refl _ _)).
  - lia.
  - repeat constructor.
Defined.

Lemma scan_directory_sole_latest_witness :
  scan_directory Logdir.re_match Logdir.gfile_exists Logdir.listdir
    Logdir.getmtime "logs" "^run..*.h5$"
  = Some "logs/run.03.h5".
Proof.
  refine (scan_directory_sole_latest Logdir.re_match Logdir.getmtime
            Logdir.gfile_exists Logdir.listdir "logs" "^run..*.h5$"
            "run.03.h5" ["run.01.h5"] ["run.02.h5"; "notes.txt"]
            eq_refl eq_refl _ _ _).
  - vm_compute. reflexivity.
  - vm_compute. reflexivity.
  - repeat constructor; vm_compute; intros; try reflexivity; discriminate.
Defined.
